(** * ESG report searcher: a shallow embedding of [searcher_prototype.py]

    The module [ESGSearcher] queries a search provider, fetches every hit,
    extracts two data points with regular expressions and validates the
    result.  This development embeds the five methods of the class

      - [search_reports]
      - [fetch_content]
      - [parse_esg_data]
      - [validate_data]
      - [process_search_results]

    and proves properties of them.

    Modelling choices.
    - Python values are the type [pyval]; a dictionary the program only
      reads (a search hit, a fetched content, a JSON object of the provider's
      response) is a finite map [gmap string pyval] used as a value.
    - A dictionary the program mutates ([data] in [parse_esg_data],
      [validate_data] and [process_search_results]) is an object of a store:
      methods receive and return its address, so that "the same object" is
      a statement about addresses.
    - Text is [string]: the UTF-8 encoding of a Python [str].  Where a
      pattern reads one character, the matcher decodes one code point: a
      literal under [re.IGNORECASE] matches the characters [re] takes for
      it (for [s] also the long s, for [i] also the dotted capital and the
      dotless small letter), and [\d] a decimal digit of any script.  Which
      characters are decimal digits is the interpreter's table, a
      parameter ([Unicode]).
    - The search service, the HTTP transport, the file system and the HTML
      parser are parameters acting on an external state of type [E].
    - Only exceptions that derive from [Exception] are modelled: those are
      the ones [except Exception] catches. *)

From Stdlib Require Import Strings.Byte Strings.Ascii.
From stdpp Require Import gmap strings list fin_maps.

Local Set Warnings "-register-all".
Local Open Scope string_scope.
Local Open Scope list_scope.
Local Open Scope nat_scope.

(** ** Python values *)

Inductive pyval : Type :=
  | PNone
  | PStr (s : string)
  | PInt (z : Z)
  | PList (l : list pyval)
  | PDict (d : gmap string pyval).

(** Exceptions, by class.  [External] stands for any exception raised by a
    library the program calls (transport, provider, file system, parser). *)
Inductive exn : Type :=
  | KeyError (key : string)
  | TypeError
  | AttributeError
  | External (msg : string).

Inductive outcome (A : Type) : Type :=
  | Ok (a : A)
  | Raise (e : exn).
Arguments Ok {A} a.
Arguments Raise {A} e.

(** [d[key]] on a dictionary value. *)
Definition getitem (d : gmap string pyval) (key : string) : outcome pyval :=
  match d !! key with
  | Some v => Ok v
  | None => Raise (KeyError key)
  end.

(** [o.get(key, default)]: only dictionaries have the method. *)
Definition py_get (o : pyval) (key : string) (default : pyval) : outcome pyval :=
  match o with
  | PDict d => Ok (from_option id default (d !! key))
  | _ => Raise AttributeError
  end.

Fixpoint chars (s : string) : list string :=
  match s with
  | EmptyString => []
  | String c s' => String c EmptyString :: chars s'
  end.

(** [for item in o]: the sequence a [for] loop runs over.  A string yields
    its characters and a dictionary its keys. *)
Definition py_iter (o : pyval) : outcome (list pyval) :=
  match o with
  | PList l => Ok l
  | PStr s => Ok (PStr <$> chars s)
  | PDict d => Ok (PStr <$> (map_to_list d).*1)
  | PNone | PInt _ => Raise TypeError
  end.

(** [a + b] where [b] is a list: defined for a list [a] only. *)
Definition py_add_list (a : pyval) (b : list pyval) : outcome pyval :=
  match a with
  | PList l => Ok (PList (l ++ b))
  | _ => Raise TypeError
  end.

(** [v == s] for a string literal [s]. *)
Definition py_eq_str (v : pyval) (s : string) : bool :=
  match v with
  | PStr t => String.eqb t s
  | _ => false
  end.

(** ** Strings *)

(** [needle in hay] on strings. *)
Fixpoint str_in (needle hay : string) : bool :=
  String.prefix needle hay ||
  match hay with
  | EmptyString => false
  | String _ hay' => str_in needle hay'
  end.

(** [s.split(sep)[-1]], with [cur] the segment read so far. *)
Fixpoint last_segment_from (sep : ascii) (s cur : string) : string :=
  match s with
  | EmptyString => cur
  | String c s' =>
      if Ascii.eqb c sep then last_segment_from sep s' ""
      else last_segment_from sep s' (cur +:+ String c "")
  end.

Definition last_segment (sep : ascii) (s : string) : string :=
  last_segment_from sep s "".

(** [sep.join(l)]. *)
Fixpoint str_join (sep : string) (l : list string) : string :=
  match l with
  | [] => ""
  | [s] => s
  | s :: rest => s +:+ sep +:+ str_join sep rest
  end.

(** One of the characters [0] to [9]. *)
Definition is_digit (c : ascii) : bool :=
  let n := N_of_ascii c in (48 <=? n)%N && (n <=? 57)%N.

(** ** Characters

    A [str] is a sequence of code points, and a [string] holds them in
    UTF-8: one byte below 128 for an ASCII character, a lead byte and one to
    three continuation bytes for any other.  (A [str] that holds a lone
    surrogate has no encoding; the model has no such text.) *)

Definition continuation (c : ascii) : bool :=
  let n := N_of_ascii c in (128 <=? n)%N && (n <? 192)%N.

(** The six bits a continuation byte carries. *)
Definition low_bits (c : ascii) : N := (N_of_ascii c - 128)%N.

(** The first character of [s], as a code point, and the text after it;
    [None] when [s] is empty or does not start with a character in its
    shortest encoding. *)
Definition utf8_head (s : string) : option (N * string) :=
  match s with
  | EmptyString => None
  | String c0 s0 =>
      let n0 := N_of_ascii c0 in
      if (n0 <? 128)%N then Some (n0, s0)
      else if (n0 <? 194)%N then None
      else if (n0 <? 224)%N then
        match s0 with
        | String c1 s1 =>
            if continuation c1
            then Some (((n0 - 192) * 64 + low_bits c1)%N, s1)
            else None
        | _ => None
        end
      else if (n0 <? 240)%N then
        match s0 with
        | String c1 (String c2 s2) =>
            let ch := (((n0 - 224) * 64 + low_bits c1) * 64 + low_bits c2)%N in
            if continuation c1 && continuation c2 && (2048 <=? ch)%N
               && negb ((55296 <=? ch)%N && (ch <=? 57343)%N)
            then Some (ch, s2)
            else None
        | _ => None
        end
      else if (n0 <? 245)%N then
        match s0 with
        | String c1 (String c2 (String c3 s3)) =>
            let ch := ((((n0 - 240) * 64 + low_bits c1) * 64 + low_bits c2) * 64
                       + low_bits c3)%N in
            if continuation c1 && continuation c2 && continuation c3
               && (65536 <=? ch)%N && (ch <=? 1114111)%N
            then Some (ch, s3)
            else None
        | _ => None
        end
      else None
  end.

(** The lower case of an ASCII character. *)
Definition ascii_lower (n : N) : N :=
  if (65 <=? n)%N && (n <=? 90)%N then (n + 32)%N else n.

(** The character [ch] of the text matches the ASCII character [c] of a
    pattern compiled with [re.IGNORECASE]: the lower case of [ch] is the
    lower case of [c], or a character [re] lists as a case variant of it.
    For an ASCII [c] these are [c] in either case and, for the letter [i],
    U+0130 and U+0131; for [s], U+017F; for [k], U+212A. *)
Definition matches_literal (c : ascii) (ch : N) : bool :=
  let l := ascii_lower (N_of_ascii c) in
  ((ch <? 128)%N && (ascii_lower ch =? l)%N)
  || ((l =? 105)%N && ((ch =? 304)%N || (ch =? 305)%N))
  || ((l =? 115)%N && (ch =? 383)%N)
  || ((l =? 107)%N && (ch =? 8490)%N).

(** The character database of the interpreter, as far as the patterns read
    it: [is_decimal ch] holds when [ch] is a decimal digit, a character of
    category Nd.  These are the characters [\d] matches in a [str]. *)
Class Unicode : Type := {
  is_decimal : N → bool
}.

(** ** Regular expressions

    The fragment of [re] the two patterns use, matched by backtracking in
    the order [re] tries the alternatives: a greedy star takes the longest
    run first, an alternation its left branch first.

    [Uni p] reads one character of the text.  [Chr p] and [Star p] read
    bytes: they stand for the classes of the emissions pattern, whose
    members ([0-9,]) or whose excluded characters ([^0-9]) are ASCII.  A run
    of characters other than [0] to [9] is a run of bytes other than those
    of [0] to [9] (lemma [char_not_digit_bytes]), and what follows the run
    in the pattern starts with an ASCII character, so the run ends between
    two characters. *)

Inductive regex : Type :=
  | Eps
  | Chr (p : ascii → bool)     (* one ASCII character, a byte, in a class *)
  | Uni (p : N → bool)         (* one character, a code point, in a class *)
  | Cat (r1 r2 : regex)
  | Alt (r1 r2 : regex)
  | Star (p : ascii → bool)
  | Group (n : nat) (r : regex).

(** The text consumed between the suffix [s] and its own suffix [s']. *)
Definition consumed (s s' : string) : string :=
  String.substring 0 (String.length s - String.length s') s.

Section Matcher.
Context {R : Type}.

Fixpoint star_match (p : ascii → bool) (s : string)
    (k : string → option R) : option R :=
  match s with
  | String c s' =>
      if p c then
        match star_match p s' k with
        | Some r => Some r
        | None => k s
        end
      else k s
  | EmptyString => k s
  end.

Fixpoint rmatch (r : regex) (s : string) (caps : gmap nat string)
    (k : string → gmap nat string → option R) : option R :=
  match r with
  | Eps => k s caps
  | Chr p =>
      match s with
      | String c s' => if p c then k s' caps else None
      | EmptyString => None
      end
  | Uni p =>
      match utf8_head s with
      | Some (ch, s') => if p ch then k s' caps else None
      | None => None
      end
  | Cat r1 r2 => rmatch r1 s caps (λ s1 caps1, rmatch r2 s1 caps1 k)
  | Alt r1 r2 =>
      match rmatch r1 s caps k with
      | Some x => Some x
      | None => rmatch r2 s caps k
      end
  | Star p => star_match p s (λ s', k s' caps)
  | Group n r1 =>
      rmatch r1 s caps (λ s' caps', k s' (<[n := consumed s s']> caps'))
  end.
End Matcher.

(** A match anchored at the start of [s]: the groups of the first way to
    match, if there is one. *)
Definition match_here (r : regex) (s : string) : option (gmap nat string) :=
  rmatch r s ∅ (λ _ caps, Some caps).

(** [re.search]: the match at the leftmost position that has one.  The
    positions are tried byte by byte; a pattern that starts with [Uni], as
    the two patterns here do, has no match inside a character (lemma
    [match_here_inside_character]). *)
Fixpoint re_search (r : regex) (s : string) : option (gmap nat string) :=
  match match_here r s with
  | Some m => Some m
  | None =>
      match s with
      | String _ s' => re_search r s'
      | EmptyString => None
      end
  end.

(** [m.group(n)] of a group that took part in the match. *)
Definition group (m : gmap nat string) (n : nat) : string :=
  default "" (m !! n).

(** An ASCII literal under [re.IGNORECASE]: character by character. *)
Fixpoint lit (s : string) : regex :=
  match s with
  | EmptyString => Eps
  | String c s' => Cat (Uni (matches_literal c)) (lit s')
  end.

Definition digit_or_comma (c : ascii) : bool :=
  is_digit c || Ascii.eqb c ","%char.

(** The pattern of [parse_esg_data] for the emissions figure: the literal
    [carbon emissions], a non-capturing group holding a starred [[^0-9]],
    group 1 [[0-9,]+], one space, and group 2 [metric tons|MT|tCO2e]. *)
Definition carbon_pattern : regex :=
  Cat (lit "carbon emissions")
   (Cat (Star (λ c, negb (is_digit c)))
    (Cat (Group 1 (Cat (Chr digit_or_comma) (Star digit_or_comma)))
     (Cat (lit " ")
          (Group 2 (Alt (lit "metric tons") (Alt (lit "MT") (lit "tCO2e"))))))).

(** The pattern for the target year: the literal [net-zero by] with its
    trailing space, then group 1, four times [\d]. *)
Definition net_zero_pattern `{!Unicode} : regex :=
  Cat (lit "net-zero by ")
      (Group 1 (Cat (Uni is_decimal) (Cat (Uni is_decimal)
                 (Cat (Uni is_decimal) (Uni is_decimal))))).

(** [re.search(pattern, text, re.IGNORECASE)]: [text] must be a string. *)
Definition py_re_search (r : regex) (text : pyval)
    : outcome (option (gmap nat string)) :=
  match text with
  | PStr s => Ok (re_search r s)
  | _ => Raise TypeError
  end.

(** ** The store, the output stream and the outside world *)

Abbreviation dict := (gmap string pyval).

Declare Scope py_scope.
Delimit Scope py_scope with py.

(** The state of everything outside the program (the network, the search
    service, the file system) has type [E]. *)
Record world (E : Type) : Type := World {
  heap : list dict;        (* the dictionaries the program mutates *)
  stdout : list string;    (* the lines printed so far *)
  ext : E
}.
Arguments World {E} heap stdout ext.
Arguments heap {E} w.
Arguments stdout {E} w.
Arguments ext {E} w.

Record response : Type := Response {
  status_code : Z;
  content_type : option string;   (* the [Content-Type] header, if any *)
  body : list byte;               (* [response.content] *)
  text : string                   (* [response.text] *)
}.

(** The libraries the class calls.  Each one sees and changes the outside
    world only, and returns or raises. *)
Class Runtime (E : Type) : Type := {
  (** [build("customsearch", "v1", developerKey=k).cse().list(q=.., cx=..,
      num=..).execute()] *)
  cse_list_execute : string → string → string → Z → E → outcome pyval * E;
  (** [requests.get(url)] and [response.raise_for_status()] *)
  requests_get : pyval → E → outcome response * E;
  raise_for_status : response → outcome unit;
  (** [os.makedirs(name, exist_ok=True)] *)
  os_makedirs : string → E → outcome unit * E;
  (** [with open(name, "wb") as f: f.write(data)] *)
  write_binary : string → list byte → E → outcome unit * E;
  (** [[p.get_text() for p in BeautifulSoup(html, "html.parser").find_all("p")]] *)
  find_all_p_text : string → outcome (list string);
  (** [str(v)] and [str(e)], as an f-string formats its fields *)
  py_str : pyval → string;
  exn_str : exn → string
}.

(** [self]: the credentials given to [__init__]; [self.service] is the
    service built from [api_key]. *)
Record ESGSearcher : Type := {
  api_key : string;
  cse_id : string
}.

(** A computation changes the world and returns or raises; what it did to
    the world before raising stays done. *)
Definition M (E A : Type) : Type := world E → outcome A * world E.

Section Monad.
Context {E : Type}.

Definition ret {A} (a : A) : M E A := λ w, (Ok a, w).

Definition bind {A B} (m : M E A) (f : A → M E B) : M E B :=
  λ w, match m w with
       | (Ok a, w') => f a w'
       | (Raise e, w') => (Raise e, w')
       end.

Definition lift {A} (o : outcome A) : M E A := λ w, (o, w).

(** [try: m  except Exception as e: handler e] *)
Definition try_except {A} (m : M E A) (handler : exn → M E A) : M E A :=
  λ w, match m w with
       | (Ok a, w') => (Ok a, w')
       | (Raise e, w') => handler e w'
       end.

Definition print (line : string) : M E unit :=
  λ w, (Ok tt, World (heap w) (stdout w ++ [line]) (ext w)).

(** A call into a library. *)
Definition call {A} (f : E → outcome A * E) : M E A :=
  λ w, let (o, e) := f (ext w) in (o, World (heap w) (stdout w) e).

(** [{}]: a new dictionary object, at the next free address. *)
Definition new_dict : M E nat :=
  λ w, (Ok (length (heap w)), World (heap w ++ [∅]) (stdout w) (ext w)).

Definition read (r : nat) : M E dict :=
  λ w, match heap w !! r with
       | Some d => (Ok d, w)
       | None => (Raise TypeError, w)
       end.

Definition write (r : nat) (d : dict) : M E unit :=
  λ w, (Ok tt, World (<[r := d]> (heap w)) (stdout w) (ext w)).
End Monad.

Notation "'let*' x := m 'in' k" := (bind m (λ x, k))
  (at level 10, x pattern, m at level 100, k at level 200) : py_scope.
Notation "m ;; k" := (bind m (λ _, k))
  (at level 100, k at level 200, right associativity) : py_scope.

Section ESGSearcher.
Context {E : Type} `{!Runtime E} {U : Unicode}.
Local Open Scope py_scope.

(** [key in data] *)
Definition contains (data : nat) (key : string) : M E bool :=
  let* d := read data in ret (bool_decide (is_Some (d !! key))).

(** [data.get(key, default)] *)
Definition dict_get (data : nat) (key : string) (default : pyval) : M E pyval :=
  let* d := read data in ret (from_option id default (d !! key)).

(** [data[key] = v] *)
Definition setitem (data : nat) (key : string) (v : pyval) : M E unit :=
  let* d := read data in write data (<[key := v]> d).

(** [data.update(other)]: the entries of [other] win. *)
Definition update (data : nat) (other : dict) : M E unit :=
  let* d := read data in write data (other ∪ d).

(** *** [search_reports] *)

(** The dictionary literal appended for one [item]. *)
Definition hit_of_item (item : pyval) : outcome dict :=
  match py_get item "title" PNone with
  | Raise e => Raise e
  | Ok title =>
      match py_get item "link" PNone with
      | Raise e => Raise e
      | Ok link =>
          match py_get item "snippet" PNone with
          | Raise e => Raise e
          | Ok snippet =>
              Ok (<["title" := title]>
                    (<["link" := link]> (<["snippet" := snippet]> ∅)))
          end
      end
  end.

(** The [for] loop: the value of [results] when the loop is left, and the
    exception that left it, if one did. *)
Fixpoint append_hits (items : list pyval) (results : list dict)
    : list dict * option exn :=
  match items with
  | [] => (results, None)
  | item :: rest =>
      match hit_of_item item with
      | Ok hit => append_hits rest (results ++ [hit])
      | Raise e => (results, Some e)
      end
  end.

Definition search_reports (self : ESGSearcher) (query : string)
    (num_results : Z) : M E (list dict) :=
  let* at_exit :=
    try_except
      (let* search_response :=
         call (cse_list_execute (api_key self) query (cse_id self)
                 num_results) in
       let* got := lift (py_get search_response "items" (PList [])) in
       let* items := lift (py_iter got) in
       ret (append_hits items []))
      (λ e, ret ([], Some e)) in
  let '(results, raised) := at_exit in
  (match raised with
   | Some e => print ("Error during search: " +:+ exn_str e)
   | None => ret tt
   end) ;;
  ret results.

(** [num_results] defaults to 10. *)
Definition search_reports_default (self : ESGSearcher) (query : string)
    : M E (list dict) :=
  search_reports self query 10.

(** *** [fetch_content] *)

(** [url.split('/')[-1]]: [url] must be a string. *)
Definition url_last_segment (url : pyval) : outcome string :=
  match url with
  | PStr s => Ok (last_segment "/"%char s)
  | _ => Raise AttributeError
  end.

Definition fetch_content (url : pyval) : M E (option dict) :=
  try_except
    (let* response := call (requests_get url) in
     lift (raise_for_status response) ;;
     if str_in "application/pdf" (default "" (content_type response)) then
       call (os_makedirs "downloads") ;;
       let* segment := lift (url_last_segment url) in
       let pdf_name := "downloads/" +:+ segment in
       call (write_binary pdf_name (body response)) ;;
       ret (Some (<["type" := PStr "pdf"]> (<["content" := PStr pdf_name]> ∅)))
     else
       let* paragraphs := lift (find_all_p_text (text response)) in
       let text := str_join " " paragraphs in
       ret (Some (<["type" := PStr "html"]> (<["content" := PStr text]> ∅))))
    (λ e,
       print ("Error fetching content from " +:+ py_str url +:+ ": "
              +:+ exn_str e) ;;
       ret None).

(** *** [parse_esg_data] *)

Definition parse_esg_data (content : dict) : M E nat :=
  let* data := new_dict in
  let* type := lift (getitem content "type") in
  if py_eq_str type "html" then
    let* text := lift (getitem content "content") in
    let* carbon_match := lift (py_re_search carbon_pattern text) in
    let* net_zero_match := lift (py_re_search net_zero_pattern text) in
    (match carbon_match with
     | Some m =>
         setitem data "carbon_emissions"
           (PStr (group m 1 +:+ " " +:+ group m 2))
     | None => ret tt
     end) ;;
    (match net_zero_match with
     | Some m => setitem data "net_zero_target" (PStr (group m 1))
     | None => ret tt
     end) ;;
    ret data
  else if py_eq_str type "pdf" then
    setitem data "note" (PStr "PDF parsing not implemented yet") ;;
    ret data
  else ret data.

(** *** [validate_data] *)

Definition validate_data (data : nat) : M E nat :=
  let* has_carbon := contains data "carbon_emissions" in
  (if negb has_carbon then
     let* old := dict_get data "error" (PList []) in
     let* new := lift (py_add_list old [PStr "Missing carbon emissions data"]) in
     setitem data "error" new
   else ret tt) ;;
  let* has_target := contains data "net_zero_target" in
  (if negb has_target then
     let* old := dict_get data "error" (PList []) in
     let* new := lift (py_add_list old [PStr "Missing net-zero target"]) in
     setitem data "error" new
   else ret tt) ;;
  ret data.

(** *** [process_search_results] *)

(** [if content:] holds for a dictionary that is not empty. *)
Definition truthy (content : option dict) : bool :=
  match content with
  | Some c => negb (bool_decide (c = ∅))
  | None => false
  end.

(** The [for] loop, with [processed_data] as built so far. *)
Fixpoint process_loop (results : list dict) (processed_data : list nat)
    : M E (list nat) :=
  match results with
  | [] => ret processed_data
  | result :: rest =>
      let* title := lift (getitem result "title") in
      let* link := lift (getitem result "link") in
      print ("Processing: " +:+ py_str title +:+ " - " +:+ py_str link) ;;
      let* link := lift (getitem result "link") in
      let* content := fetch_content link in
      match content with
      | Some c =>
          if truthy content then
            let* parsed_data := parse_esg_data c in
            let* validated_data := validate_data parsed_data in
            let* source := lift (getitem result "link") in
            let* title := lift (getitem result "title") in
            let* snippet := lift (getitem result "snippet") in
            update validated_data
              (<["source" := source]>
                 (<["title" := title]> (<["snippet" := snippet]> ∅))) ;;
            process_loop rest (processed_data ++ [validated_data])
          else process_loop rest processed_data
      | None => process_loop rest processed_data
      end
  end.

Definition process_search_results (results : list dict) : M E (list nat) :=
  process_loop results [].

End ESGSearcher.


(** ** Functional views of the methods

    What [validate_data] and [parse_esg_data] do to the dictionary they work
    on, as functions on dictionary values.  The lemmas [validate_data_spec]
    and [parse_esg_data_spec] below relate them to the methods. *)

(** [data.get("error", [])] *)
Definition error_list (d : dict) : pyval :=
  from_option id (PList []) (d !! "error").

Definition missing_messages (d : dict) : list pyval :=
  (if bool_decide (is_Some (d !! "carbon_emissions")) then []
   else [PStr "Missing carbon emissions data"]) ++
  (if bool_decide (is_Some (d !! "net_zero_target")) then []
   else [PStr "Missing net-zero target"]).

Definition validated (d : dict) : outcome dict :=
  match missing_messages d with
  | [] => Ok d
  | msgs =>
      match error_list d with
      | PList l0 => Ok (<["error" := PList (l0 ++ msgs)]> d)
      | _ => Raise TypeError
      end
  end.

Definition with_carbon (m : option (gmap nat string)) (d : dict) : dict :=
  match m with
  | Some m => <["carbon_emissions" := PStr (group m 1 +:+ " " +:+ group m 2)]> d
  | None => d
  end.

Definition with_target (m : option (gmap nat string)) (d : dict) : dict :=
  match m with
  | Some m => <["net_zero_target" := PStr (group m 1)]> d
  | None => d
  end.

Definition parsed `{!Unicode} (content : dict) : outcome dict :=
  match getitem content "type" with
  | Raise e => Raise e
  | Ok type =>
      if py_eq_str type "html" then
        match getitem content "content" with
        | Raise e => Raise e
        | Ok text =>
            match py_re_search carbon_pattern text with
            | Raise e => Raise e
            | Ok carbon_match =>
                match py_re_search net_zero_pattern text with
                | Raise e => Raise e
                | Ok net_zero_match =>
                    Ok (with_target net_zero_match (with_carbon carbon_match ∅))
                end
            end
        end
      else if py_eq_str type "pdf" then
        Ok (<["note" := PStr "PDF parsing not implemented yet"]> ∅)
      else Ok ∅
  end.

(** The statement [data["error"] = data.get("error", []) + [msg]] that
    [validate_data] runs for a missing field. *)
Definition append_error {E} (data : nat) (msg : pyval) : M E unit :=
  (let* old := dict_get data "error" (PList []) in
   let* new := lift (py_add_list old [msg]) in
   setitem data "error" new)%py.

(** No match of [r] starts inside [pre] when the text is [pre +:+ rest]:
    none at a character of [pre], and none inside one. *)
Fixpoint no_match_before (r : regex) (pre rest : string) : bool :=
  match pre with
  | EmptyString => true
  | String _ pre' =>
      bool_decide (match_here r (pre +:+ rest) = None)
      && no_match_before r pre' rest
  end.


(** The line [search_reports] prints when it catches [e]. *)
Definition search_warning `{!Runtime E} (e : exn) : string :=
  "Error during search: " +:+ exn_str e.


(** A SearchHit: a dictionary with the three keys [search_reports] sets. *)
Definition is_hit (hit : dict) : Prop :=
  is_Some (hit !! "title") ∧ is_Some (hit !! "link")
  ∧ is_Some (hit !! "snippet").



(** ** A concrete runtime, for examples

    The outside state is the list of the files written so far. *)
Module Demo.
Definition files : Type := list (string * list byte).

Definition item (title link : string) : pyval :=
  PDict (<["title" := PStr title]>
           (<["link" := PStr link]>
              (<["snippet" := PStr "sustainability report"]> ∅))).

Definition page : string :=
  "In 2023 our carbon emissions skyrocketed to 1,234 metric tons; "
  +:+ "the company aims to be net-zero by 2045.".

(** Three items whatever [num] is; a list with a null item for the query
    [odd]; a failure for the query [down]. *)
Definition service (key q cx : string) (num : Z) (e : files)
    : outcome pyval * files :=
  if String.eqb q "down" then (Raise (External "quota exceeded"), e)
  else if String.eqb q "odd" then
    (Ok (PDict (<["items" := PList [item "A" "http://a/report.html"; PNone]]> ∅)), e)
  else
    (Ok (PDict (<["items" := PList [item "A" "http://a/report.html";
                                     item "B" "http://a/gone";
                                     item "C" "http://a/report.pdf"]]> ∅)), e).

Definition get (url : pyval) (e : files) : outcome response * files :=
  if py_eq_str url "http://a/report.html" then
    (Ok (Response 200 (Some "text/html; charset=utf-8") [] page), e)
  else if py_eq_str url "http://a/report.pdf" then
    (Ok (Response 200 (Some "application/pdf") [x25; x50; x44; x46] ""), e)
  else if py_eq_str url "http://a/gone" then
    (Ok (Response 404 None [] "Not Found"), e)
  else (Raise (External "connection refused"), e).

Definition check_status (r : response) : outcome unit :=
  if (400 <=? status_code r)%Z && (status_code r <? 600)%Z
  then Raise (External "HTTPError") else Ok tt.

Definition makedirs (name : string) (e : files) : outcome unit * files :=
  (Ok tt, e).

Definition write_file (name : string) (data : list byte) (e : files)
    : outcome unit * files :=
  (Ok tt, (e ++ [(name, data)])%list).

Definition str_of (v : pyval) : string :=
  match v with
  | PStr s => s
  | _ => "None"
  end.

Definition str_of_exn (e : exn) : string :=
  match e with
  | KeyError k => k
  | TypeError => "TypeError"
  | AttributeError => "AttributeError"
  | External msg => msg
  end.

#[global] Instance runtime : Runtime files := {|
  cse_list_execute := service;
  requests_get := get;
  raise_for_status := check_status;
  os_makedirs := makedirs;
  write_binary := write_file;
  find_all_p_text := λ html, Ok [html];
  py_str := str_of;
  exn_str := str_of_exn
|}.

(** The decimal digits of Unicode 14.0, the version of the database in
    CPython 3.11: the first and the last code point of each run of digits
    (the ASCII digits, the Arabic-Indic digits, and so on). *)
Definition decimal_ranges : list (N * N) :=
  [(48%N, 57%N); (1632%N, 1641%N); (1776%N, 1785%N); (1984%N, 1993%N);
   (2406%N, 2415%N); (2534%N, 2543%N); (2662%N, 2671%N); (2790%N, 2799%N);
   (2918%N, 2927%N); (3046%N, 3055%N); (3174%N, 3183%N); (3302%N, 3311%N);
   (3430%N, 3439%N); (3558%N, 3567%N); (3664%N, 3673%N); (3792%N, 3801%N);
   (3872%N, 3881%N); (4160%N, 4169%N); (4240%N, 4249%N); (6112%N, 6121%N);
   (6160%N, 6169%N); (6470%N, 6479%N); (6608%N, 6617%N); (6784%N, 6793%N);
   (6800%N, 6809%N); (6992%N, 7001%N); (7088%N, 7097%N); (7232%N, 7241%N);
   (7248%N, 7257%N); (42528%N, 42537%N); (43216%N, 43225%N);
   (43264%N, 43273%N); (43472%N, 43481%N); (43504%N, 43513%N);
   (43600%N, 43609%N); (44016%N, 44025%N); (65296%N, 65305%N);
   (66720%N, 66729%N); (68912%N, 68921%N); (69734%N, 69743%N);
   (69872%N, 69881%N); (69942%N, 69951%N); (70096%N, 70105%N);
   (70384%N, 70393%N); (70736%N, 70745%N); (70864%N, 70873%N);
   (71248%N, 71257%N); (71360%N, 71369%N); (71472%N, 71481%N);
   (71904%N, 71913%N); (72016%N, 72025%N); (72784%N, 72793%N);
   (73040%N, 73049%N); (73120%N, 73129%N); (92768%N, 92777%N);
   (92864%N, 92873%N); (93008%N, 93017%N); (120782%N, 120831%N);
   (123200%N, 123209%N); (123632%N, 123641%N); (125264%N, 125273%N);
   (130032%N, 130041%N)].

#[global] Instance unicode : Unicode := {|
  is_decimal ch :=
    existsb (λ r : N * N, (r.1 <=? ch)%N && (ch <=? r.2)%N) decimal_ranges
|}.

Definition searcher : ESGSearcher := {| api_key := "key"; cse_id := "cx" |}.

Definition start : world files := World [] [] [].

Definition hit (title link : string) : dict :=
  <["title" := PStr title]>
    (<["link" := PStr link]>
       (<["snippet" := PStr "sustainability report"]> ∅)).
End Demo.

(** ** What a regular expression matches

    The texts a pattern matches, with the groups they set: the declarative
    reading of the patterns, against which the backtracking matcher is
    checked. *)

Fixpoint all_chars (p : ascii → bool) (s : string) : bool :=
  match s with
  | EmptyString => true
  | String c s' => p c && all_chars p s'
  end.

(** [text] is [phrase] as [re.IGNORECASE] reads it: character by character,
    each character of [text] matches the ASCII character of [phrase] at its
    place. *)
Fixpoint ci_match (text phrase : string) : bool :=
  match phrase with
  | EmptyString =>
      match text with
      | EmptyString => true
      | _ => false
      end
  | String c phrase' =>
      match utf8_head text with
      | Some (ch, text') => matches_literal c ch && ci_match text' phrase'
      | None => false
      end
  end.

(** [s] is [n] characters, each of them a decimal digit. *)
Fixpoint decimal_digits `{!Unicode} (n : nat) (s : string) : bool :=
  match n with
  | 0 =>
      match s with
      | EmptyString => true
      | _ => false
      end
  | S n' =>
      match utf8_head s with
      | Some (ch, s') => is_decimal ch && decimal_digits n' s'
      | None => false
      end
  end.

(** A character of [s] is in the class [p]. *)
Fixpoint some_char (p : N → bool) (s : string) : bool :=
  match s with
  | EmptyString => false
  | String _ s' =>
      match utf8_head s with
      | Some (ch, _) => p ch
      | None => false
      end
      || some_char p s'
  end.

(** A digit [0] to [9] or a comma, as a code point. *)
Definition figure_char (ch : N) : bool :=
  ((48 <=? ch)%N && (ch <=? 57)%N) || (ch =? 44)%N.

Inductive lang : regex → string → gmap nat string → gmap nat string → Prop :=
  | lang_eps caps : lang Eps "" caps caps
  | lang_chr p c caps : p c = true → lang (Chr p) (String c "") caps caps
  | lang_uni p s ch caps :
      utf8_head s = Some (ch, "") → p ch = true → lang (Uni p) s caps caps
  | lang_cat r1 r2 s1 s2 caps0 caps1 caps2 :
      lang r1 s1 caps0 caps1 → lang r2 s2 caps1 caps2 →
      lang (Cat r1 r2) (s1 +:+ s2) caps0 caps2
  | lang_alt_l r1 r2 s caps caps' :
      lang r1 s caps caps' → lang (Alt r1 r2) s caps caps'
  | lang_alt_r r1 r2 s caps caps' :
      lang r2 s caps caps' → lang (Alt r1 r2) s caps caps'
  | lang_star p s caps : all_chars p s = true → lang (Star p) s caps caps
  | lang_group n r s caps caps' :
      lang r s caps caps' → lang (Group n r) s caps (<[n := s]> caps').

(** The entries [process_search_results] merges into the record of [hit]. *)
Definition metadata (hit : dict) : dict :=
  <["source" := default PNone (hit !! "link")]>
    (<["title" := default PNone (hit !! "title")]>
       (<["snippet" := default PNone (hit !! "snippet")]> ∅)).

(** The [error] entry of a record agrees with the fields it lacks. *)
Definition consistent_record (d : dict) : Prop :=
  d !! "error"
  = match missing_messages d with
    | [] => None
    | msgs => Some (PList msgs)
    end.

(** The line [process_search_results] prints before it fetches [hit]. *)
Definition processing_line `{!Runtime E} (hit : dict) : string :=
  "Processing: " +:+ py_str (default PNone (hit !! "title")) +:+ " - "
  +:+ py_str (default PNone (hit !! "link")).

(** ** A second runtime: no results and a disk that cannot be written

    The provider answers without an [items] entry and every write fails;
    the rest is as in [Demo]. *)
Module Quiet.
Definition service (key q cx : string) (num : Z) (e : Demo.files)
    : outcome pyval * Demo.files :=
  (Ok (PDict (<["kind" := PStr "customsearch#search"]> ∅)), e).

Definition write_file (name : string) (data : list byte) (e : Demo.files)
    : outcome unit * Demo.files :=
  (Raise (External "Permission denied"), e).

Definition runtime : Runtime Demo.files := {|
  cse_list_execute := service;
  requests_get := Demo.get;
  raise_for_status := Demo.check_status;
  os_makedirs := Demo.makedirs;
  write_binary := write_file;
  find_all_p_text := λ html, Ok [html];
  py_str := Demo.str_of;
  exn_str := Demo.str_of_exn
|}.
End Quiet.

(** ** A third runtime: a server that answers 300

    Every request is answered with the status 300 (Multiple Choices) and a
    body that holds no paragraph.  The status check is the one of
    [requests], which raises for the statuses 400 to 599 only; the rest is
    as in [Demo]. *)
Module Choices.
Definition get (url : pyval) (e : Demo.files)
    : outcome response * Demo.files :=
  (Ok (Response 300 (Some "text/html") [] "Multiple Choices"), e).

Definition runtime : Runtime Demo.files := {|
  cse_list_execute := Demo.service;
  requests_get := get;
  raise_for_status := Demo.check_status;
  os_makedirs := Demo.makedirs;
  write_binary := Demo.write_file;
  find_all_p_text := λ html, Ok [];
  py_str := Demo.str_of;
  exn_str := Demo.str_of_exn
|}.
End Choices.

(** * Properties *)

(** ** The embedding on concrete inputs *)

Example last_segment_of_url :
  last_segment "/" "http://a/reports/2023.pdf" = "2023.pdf"
  ∧ last_segment "/" "report" = "report"
  ∧ last_segment "/" "http://a/reports/" = "".
Proof. by vm_compute. Qed.

Example content_type_with_charset :
  str_in "application/pdf" "application/pdf; charset=binary" = true
  ∧ str_in "application/pdf" "text/html; charset=utf-8" = false.
Proof. by vm_compute. Qed.

Example net_zero_year :
  (λ m, group m 1)
    <$> re_search net_zero_pattern "the company aims to be net-zero by 2045"
  = Some "2045".
Proof. by vm_compute. Qed.

(** The unit is stored as the text writes it, not as the pattern does. *)
Example carbon_unit_casing :
  (λ m, group m 1 +:+ " " +:+ group m 2)
    <$> re_search carbon_pattern "CARBON EMISSIONS: 12,500 mt in 2023"
  = Some "12,500 mt".
Proof. by vm_compute. Qed.

Example carbon_needs_unit :
  re_search carbon_pattern "carbon emissions rose by 12 percent" = None.
Proof. by vm_compute. Qed.

(** [\d] takes the decimal digits of every script. *)
Example net_zero_year_arabic_indic :
  (λ m, group m 1) <$> re_search net_zero_pattern "net-zero by ٢٠٤٥"
  = Some "٢٠٤٥".
Proof. by vm_compute. Qed.

(** [re.IGNORECASE] takes the long s for [s] and the dotless i for [i]; a
    digit of another script is not in [[0-9]], so it is part of the
    filler. *)
Example carbon_long_s :
  (λ m, group m 1 +:+ " " +:+ group m 2)
    <$> re_search carbon_pattern "Carbon emiſſions: ٢ or 5 metrıc tons"
  = Some "5 metrıc tons".
Proof. by vm_compute. Qed.

(** A match that starts earlier is seen in whatever characters it is
    written. *)
Example earlier_match_with_long_s :
  no_match_before carbon_pattern "carbon emiſſions 5 MT; "
    "carbon emissions skyrocketed to 1,234 metric tons" = false.
Proof. by vm_compute. Qed.

(** Two hits, the second one answered with status 404: one record, with
    both data points, no [error] entry and the metadata of the first hit. *)
Example process_page_and_missing_page :
  process_search_results
    [Demo.hit "A" "http://a/report.html"; Demo.hit "B" "http://a/gone"]
    Demo.start
  = (Ok [0],
     World
       [<["source" := PStr "http://a/report.html"]>
          (<["title" := PStr "A"]>
             (<["snippet" := PStr "sustainability report"]>
                (<["net_zero_target" := PStr "2045"]>
                   (<["carbon_emissions" := PStr "1,234 metric tons"]> ∅))))]
       ["Processing: A - http://a/report.html";
        "Processing: B - http://a/gone";
        "Error fetching content from http://a/gone: HTTPError"]
       []).
Proof. by vm_compute. Qed.

(** ** The store *)

Section StoreLemmas.
Context {E : Type} {U : Unicode}.
Implicit Types (w : world E) (r : nat) (d : dict).

Lemma bind_ok {A B} (m : M E A) (f : A → M E B) w a w' :
  m w = (Ok a, w') → bind m f w = f a w'.
Proof. intros H. unfold bind. by rewrite H. Qed.

Lemma bind_raise {A B} (m : M E A) (f : A → M E B) w e w' :
  m w = (Raise e, w') → bind m f w = (Raise e, w').
Proof. intros H. unfold bind. by rewrite H. Qed.

Lemma contains_ok w r d key :
  heap w !! r = Some d →
  contains r key w = (Ok (bool_decide (is_Some (d !! key))), w).
Proof. intros H. unfold contains, bind, read, ret. by rewrite H. Qed.

Lemma dict_get_ok w r d key dflt :
  heap w !! r = Some d →
  dict_get r key dflt w = (Ok (from_option id dflt (d !! key)), w).
Proof. intros H. unfold dict_get, bind, read, ret. by rewrite H. Qed.

Lemma setitem_ok w r d key v :
  heap w !! r = Some d →
  setitem r key v w
  = (Ok tt, World (<[r := <[key := v]> d]> (heap w)) (stdout w) (ext w)).
Proof. intros H. unfold setitem, bind, read, write. by rewrite H. Qed.

Lemma update_ok w r d other :
  heap w !! r = Some d →
  update r other w
  = (Ok tt, World (<[r := other ∪ d]> (heap w)) (stdout w) (ext w)).
Proof. intros H. unfold update, bind, read, write. by rewrite H. Qed.

(** The newest object is the last one of the store. *)
Lemma lookup_last (h : list dict) d : (h ++ [d]) !! length h = Some d.
Proof. by rewrite list_lookup_middle. Qed.

Lemma insert_last (h : list dict) d d' :
  <[length h := d']> (h ++ [d]) = h ++ [d'].
Proof.
  rewrite insert_app_r_alt by lia. by rewrite Nat.sub_diag.
Qed.

Lemma setitem_last (h : list dict) o (e : E) d key v :
  setitem (length h) key v (World (h ++ [d]) o e)
  = (Ok tt, World (h ++ [<[key := v]> d]) o e).
Proof.
  erewrite setitem_ok by apply lookup_last. simpl. by rewrite insert_last.
Qed.

(** *** [validate_data] as a function on the dictionary *)

Lemma append_error_ok w r d l0 msg :
  heap w !! r = Some d → error_list d = PList l0 →
  append_error r msg w
  = (Ok tt, World (<[r := <["error" := PList (l0 ++ [msg])]> d]> (heap w))
              (stdout w) (ext w)).
Proof.
  intros Hr He. unfold append_error.
  erewrite bind_ok; [|by apply dict_get_ok].
  fold (error_list d). rewrite He. unfold lift at 1, bind at 1. simpl.
  by apply setitem_ok.
Qed.

Lemma append_error_raise w r d msg :
  heap w !! r = Some d → (∀ l0, error_list d ≠ PList l0) →
  append_error r msg w = (Raise TypeError, w).
Proof.
  intros Hr He. unfold append_error.
  erewrite bind_ok; [|by apply dict_get_ok].
  fold (error_list d). unfold lift, bind.
  destruct (error_list d); try done. by destruct (He l).
Qed.

Lemma validate_data_spec w r d :
  heap w !! r = Some d →
  validate_data r w
  = match validated d with
    | Ok d' => (Ok r, World (<[r := d']> (heap w)) (stdout w) (ext w))
    | Raise e => (Raise e, w)
    end.
Proof.
  intros Hr. destruct w as [h o e]; simpl in *.
  assert (Hlt : r < length h) by by eapply lookup_lt_Some.
  unfold validate_data, validated, missing_messages.
  fold (append_error (E:=E) r (PStr "Missing carbon emissions data")).
  fold (append_error (E:=E) r (PStr "Missing net-zero target")).
  erewrite bind_ok; [|by apply contains_ok].
  destruct (bool_decide (is_Some (d !! "carbon_emissions"))) eqn:Hc; simpl.
  - (* carbon_emissions is present *)
    unfold ret at 1, bind at 1.
    erewrite bind_ok; [|by apply contains_ok].
    destruct (bool_decide (is_Some (d !! "net_zero_target"))) eqn:Hn; simpl.
    + unfold ret, bind. by rewrite list_insert_id.
    + destruct (error_list d) as [| | |l0|] eqn:He;
        try (erewrite bind_raise; [done|];
             eapply append_error_raise; [done|]; intros ?; congruence).
      erewrite bind_ok; [|by eapply append_error_ok]. done.
  - (* carbon_emissions is missing *)
    destruct (error_list d) as [| | |l0|] eqn:He;
      try (erewrite bind_raise;
             [by destruct (bool_decide (is_Some (d !! "net_zero_target")))|];
           eapply append_error_raise; [done|]; intros ?; congruence).
    erewrite bind_ok; [|by eapply append_error_ok].
    set (d1 := <["error" := PList (l0 ++ [PStr "Missing carbon emissions data"])]> d).
    assert (Hr1 : heap (World (<[r:=d1]> h) o e) !! r = Some d1)
      by by apply list_lookup_insert_eq.
    erewrite bind_ok; [|by apply contains_ok].
    assert (Hk : d1 !! "net_zero_target" = d !! "net_zero_target")
      by by apply lookup_insert_ne.
    rewrite Hk.
    destruct (bool_decide (is_Some (d !! "net_zero_target"))) eqn:Hn; simpl.
    + by unfold ret, bind.
    + erewrite bind_ok; [|eapply (append_error_ok _ _ d1); [done|]].
      2:{ unfold error_list, d1. by rewrite lookup_insert_eq. }
      unfold ret; simpl. rewrite list_insert_insert_eq.
      unfold d1. by rewrite insert_insert_eq, <- app_assoc.
Qed.

(** *** [parse_esg_data] as a function of the content *)

Lemma parse_esg_data_spec (content : dict) w :
  parse_esg_data content w
  = match parsed content with
    | Ok d => (Ok (length (heap w)),
               World (heap w ++ [d]) (stdout w) (ext w))
    | Raise e => (Raise e, World (heap w ++ [∅]) (stdout w) (ext w))
    end.
Proof.
  destruct w as [h o e]. unfold parse_esg_data, parsed.
  unfold new_dict at 1, bind at 1. simpl.
  unfold lift at 1, bind at 1.
  destruct (getitem content "type") as [type|?]; [|done].
  destruct (py_eq_str type "html").
  - unfold lift at 1, bind at 1.
    destruct (getitem content "content") as [text|?]; [|done].
    unfold lift at 1, bind at 1.
    destruct (py_re_search carbon_pattern text) as [cm|?]; [|done].
    unfold lift at 1, bind at 1.
    destruct (py_re_search net_zero_pattern text) as [nm|?]; [|done].
    destruct cm as [cm|], nm as [nm|]; simpl;
      repeat (first [ erewrite bind_ok; [|by apply setitem_last]
                    | erewrite bind_ok; [|by unfold ret] ]);
      done.
  - destruct (py_eq_str type "pdf"); [|done].
    erewrite bind_ok; [|by apply setitem_last]. done.
Qed.
End StoreLemmas.

(** ** Regular expressions *)

Lemma length_append (a b : string) :
  String.length (a +:+ b) = String.length a + String.length b.
Proof. induction a as [|c a IH]; simpl; [done|]. by rewrite IH. Qed.

Lemma substring_append (a b : string) :
  String.substring 0 (String.length a) (a +:+ b) = a.
Proof. induction a as [|c a IH]; simpl; [by destruct b|]. by rewrite IH. Qed.

Lemma consumed_append (a s' : string) : consumed (a +:+ s') s' = a.
Proof.
  unfold consumed. rewrite length_append.
  replace (String.length a + String.length s' - String.length s')
    with (String.length a) by lia.
  apply substring_append.
Qed.

Lemma append_cons c (a b : string) : String c a +:+ b = String c (a +:+ b).
Proof. reflexivity. Qed.

(** *** Characters *)

(** The bytes [utf8_head] reads are those of the character it returns. *)
Lemma utf8_head_split s ch s' :
  utf8_head s = Some (ch, s') →
  ∃ s1, s = s1 +:+ s' ∧ utf8_head s1 = Some (ch, "").
Proof.
  unfold utf8_head. destruct s as [|c0 s]; [done|]. cbv zeta.
  destruct (N_of_ascii c0 <? 128)%N eqn:H0.
  { intros [= <- <-]. exists (String c0 ""). by rewrite H0. }
  destruct (N_of_ascii c0 <? 194)%N eqn:H1; [done|].
  destruct (N_of_ascii c0 <? 224)%N eqn:H2.
  { destruct s as [|c1 s]; [done|].
    destruct (continuation c1) eqn:Hc1; [|done].
    intros [= <- <-]. exists (String c0 (String c1 "")).
    by rewrite H0, H1, H2, Hc1. }
  destruct (N_of_ascii c0 <? 240)%N eqn:H3.
  { destruct s as [|c1 [|c2 s]]; try done.
    match goal with |- context [if ?b then _ else _] => destruct b eqn:Hc end;
      [|done].
    intros [= <- <-]. exists (String c0 (String c1 (String c2 ""))).
    by rewrite H0, H1, H2, H3, Hc. }
  destruct (N_of_ascii c0 <? 245)%N eqn:H4; [|done].
  destruct s as [|c1 [|c2 [|c3 s]]]; try done.
  match goal with |- context [if ?b then _ else _] => destruct b eqn:Hc end;
    [|done].
  intros [= <- <-]. exists (String c0 (String c1 (String c2 (String c3 "")))).
  by rewrite H0, H1, H2, H3, H4, Hc.
Qed.

Lemma utf8_head_append a ch a' b :
  utf8_head a = Some (ch, a') → utf8_head (a +:+ b) = Some (ch, a' +:+ b).
Proof.
  unfold utf8_head. destruct a as [|c0 a]; [done|]. rewrite append_cons.
  cbv zeta.
  destruct (N_of_ascii c0 <? 128)%N; [by intros [= <- <-]|].
  destruct (N_of_ascii c0 <? 194)%N; [done|].
  destruct (N_of_ascii c0 <? 224)%N.
  { destruct a as [|c1 a]; [done|]. rewrite append_cons.
    destruct (continuation c1); [by intros [= <- <-]|done]. }
  destruct (N_of_ascii c0 <? 240)%N.
  { destruct a as [|c1 [|c2 a]]; try done. rewrite !append_cons.
    match goal with |- context [if ?b then _ else _] => destruct b end;
      [by intros [= <- <-]|done]. }
  destruct (N_of_ascii c0 <? 245)%N; [|done].
  destruct a as [|c1 [|c2 [|c3 a]]]; try done. rewrite !append_cons.
  match goal with |- context [if ?b then _ else _] => destruct b end;
    [by intros [= <- <-]|done].
Qed.

(** No character starts at a continuation byte. *)
Lemma utf8_head_continuation c s :
  continuation c = true → utf8_head (String c s) = None.
Proof.
  unfold continuation, utf8_head. cbv zeta. intros [H1 H2]%andb_prop.
  apply N.leb_le in H1. apply N.ltb_lt in H2.
  destruct (N.ltb_spec (N_of_ascii c) 128); [lia|].
  destruct (N.ltb_spec (N_of_ascii c) 194); [done|lia].
Qed.

(** An ASCII character is one byte, and one byte only. *)
Lemma utf8_head_ascii c s :
  (N_of_ascii c < 128)%N → utf8_head (String c s) = Some (N_of_ascii c, s).
Proof.
  intros H. unfold utf8_head. cbv zeta.
  by destruct (N.ltb_spec (N_of_ascii c) 128); [|lia].
Qed.

Lemma utf8_head_ascii_inv s ch s' :
  utf8_head s = Some (ch, s') → (ch < 128)%N →
  s = String (ascii_of_N ch) s'.
Proof.
  unfold utf8_head, low_bits. destruct s as [|c0 s]; [done|]. cbv zeta.
  destruct (N.ltb_spec (N_of_ascii c0) 128) as [H0|H0].
  { intros [= <- <-] _. by rewrite ascii_N_embedding. }
  destruct (N.ltb_spec (N_of_ascii c0) 194) as [H1|H1]; [done|].
  destruct (N.ltb_spec (N_of_ascii c0) 224) as [H2|H2].
  { destruct s as [|c1 s]; [done|].
    destruct (continuation c1); [|done]. intros [= <- <-]. lia. }
  destruct (N.ltb_spec (N_of_ascii c0) 240) as [H3|H3].
  { destruct s as [|c1 [|c2 s]]; try done.
    match goal with |- context [if ?b then _ else _] => destruct b eqn:Hc end;
      [|done].
    apply andb_prop in Hc as [Hc _]. apply andb_prop in Hc as [_ Hc].
    apply N.leb_le in Hc. intros [= <- <-]. lia. }
  destruct (N.ltb_spec (N_of_ascii c0) 245) as [H4|H4]; [|done].
  destruct s as [|c1 [|c2 [|c3 s]]]; try done.
  match goal with |- context [if ?b then _ else _] => destruct b eqn:Hc end;
    [|done].
  apply andb_prop in Hc as [Hc _]. apply andb_prop in Hc as [_ Hc].
  apply N.leb_le in Hc. intros [= <- <-]. lia.
Qed.

Lemma is_digit_high c : (128 ≤ N_of_ascii c)%N → is_digit c = false.
Proof.
  unfold is_digit. intros Hc. cbv zeta.
  destruct (N.leb_spec (N_of_ascii c) 57); [lia|]. by rewrite andb_false_r.
Qed.

Lemma continuation_high c :
  continuation c = true → (128 ≤ N_of_ascii c)%N.
Proof. unfold continuation. intros [Hc _]%andb_prop. by apply N.leb_le. Qed.

(** The bytes of a character are bytes of [0] to [9] only if it is one of
    these digits: the class [[^0-9]] can be read byte by byte. *)
Lemma char_not_digit_bytes s ch :
  utf8_head s = Some (ch, "") →
  all_chars (λ c, negb (is_digit c)) s
  = negb ((48 <=? ch)%N && (ch <=? 57)%N).
Proof.
  assert (Hhigh : ∀ n, (128 ≤ n)%N → negb ((48 <=? n)%N && (n <=? 57)%N) = true).
  { intros n Hn. destruct (N.leb_spec n 57); [lia|]. by rewrite andb_false_r. }
  unfold utf8_head, low_bits. destruct s as [|c0 s]; [done|]. cbv zeta.
  destruct (N.ltb_spec (N_of_ascii c0) 128) as [H0|H0].
  { intros [= <- ->]. simpl. by rewrite andb_true_r. }
  destruct (N.ltb_spec (N_of_ascii c0) 194) as [H1|H1]; [done|].
  destruct (N.ltb_spec (N_of_ascii c0) 224) as [H2|H2].
  { destruct s as [|c1 s]; [done|].
    destruct (continuation c1) eqn:Hc1; [|done]. intros [= <- ->].
    apply continuation_high in Hc1.
    rewrite Hhigh by lia. simpl. by rewrite !is_digit_high by lia. }
  destruct (N.ltb_spec (N_of_ascii c0) 240) as [H3|H3].
  { destruct s as [|c1 [|c2 s]]; try done.
    match goal with |- context [if ?b then _ else _] => destruct b eqn:Hc end;
      [|done].
    apply andb_prop in Hc as [Hc _]. apply andb_prop in Hc as [Hc Hch].
    apply andb_prop in Hc as [Hc1 Hc2]. apply N.leb_le in Hch.
    apply continuation_high in Hc1, Hc2. intros [= <- ->].
    rewrite Hhigh by lia. simpl. by rewrite !is_digit_high by lia. }
  destruct (N.ltb_spec (N_of_ascii c0) 245) as [H4|H4]; [|done].
  destruct s as [|c1 [|c2 [|c3 s]]]; try done.
  match goal with |- context [if ?b then _ else _] => destruct b eqn:Hc end;
    [|done].
  apply andb_prop in Hc as [Hc _]. apply andb_prop in Hc as [Hc Hch].
  apply andb_prop in Hc as [Hc Hc3]. apply andb_prop in Hc as [Hc1 Hc2].
  apply N.leb_le in Hch.
  apply continuation_high in Hc1, Hc2, Hc3. intros [= <- ->].
  rewrite Hhigh by lia. simpl. by rewrite !is_digit_high by lia.
Qed.

(** Neither pattern has a match that starts inside a character: searching
    byte by byte finds the matches that start at a character, and no
    others. *)
Lemma match_here_inside_character {U : Unicode} c s :
  continuation c = true →
  match_here carbon_pattern (String c s) = None
  ∧ match_here net_zero_pattern (String c s) = None.
Proof.
  intros Hc. unfold match_here, carbon_pattern, net_zero_pattern.
  cbn [lit rmatch]. by rewrite utf8_head_continuation.
Qed.

(** [re.search] returns the match at the first position that has one. *)
Lemma re_search_leftmost r pre rest m :
  no_match_before r pre rest = true →
  match_here r rest = Some m →
  re_search r (pre +:+ rest) = Some m.
Proof.
  intros Hpre Hm. induction pre as [|c pre IH].
  - destruct rest; simpl; by rewrite Hm.
  - cbn [no_match_before] in Hpre. apply andb_prop in Hpre as [H1 H2].
    apply bool_decide_eq_true in H1.
    change (String c pre +:+ rest) with (String c (pre +:+ rest)) in *.
    cbn [re_search]. rewrite H1. by apply IH.
Qed.

(** Anchored at the phrase of the specification, the emissions pattern
    matches whatever follows, and its groups are the figure and the unit. *)
Lemma match_here_skyrocketed (suf : string) :
  match_here carbon_pattern
    ("carbon emissions skyrocketed to 1,234 metric tons" +:+ suf)
  = Some (<[2 := "metric tons"]> (<[1 := "1,234"]> ∅)).
Proof.
  unfold match_here, carbon_pattern.
  lazy -[consumed insert empty].
  change (consumed _ suf) with (consumed ("metric tons" +:+ suf) suf).
  change (consumed _ (String " " _))
    with (consumed ("1,234" +:+ (" metric tons" +:+ suf))
            (" metric tons" +:+ suf)).
  by rewrite !consumed_append.
Qed.

(** ** The methods that call the libraries *)

Section RuntimeLemmas.
Context {E : Type} `{!Runtime E}.
Implicit Types (w : world E) (d : dict) (url : pyval).

Local Ltac run_fetch :=
  unfold fetch_content, try_except, bind, call, lift, print, ret,
    url_last_segment;
  simpl;
  repeat case_match; simplify_eq/=.

(** [fetch_content] catches everything and leaves the store alone. *)
Lemma fetch_content_returns url w :
  ∃ c w', fetch_content url w = (Ok c, w') ∧ heap w' = heap w.
Proof. run_fetch; eauto. Qed.

(** What [fetch_content] returns, prints and does to the outside world
    depends on the outside world only. *)
Lemma fetch_content_local url h o (e : E) :
  fetch_content url (World h o e)
  = (let '(c, w') := fetch_content url (World [] [] e) in
     (c, World h (o ++ stdout w') (ext w'))).
Proof.
  unfold fetch_content, try_except, bind, call, lift, print, ret. simpl.
  destruct (requests_get url e) as [[resp|?] e1]; simpl; [|reflexivity].
  destruct (raise_for_status resp) as [[]|?]; simpl; [|reflexivity].
  destruct (str_in "application/pdf" (default "" (content_type resp)));
    simpl.
  - destruct (os_makedirs "downloads" e1) as [[[]|?] e2]; simpl;
      [|reflexivity].
    destruct (url_last_segment url) as [segment|?]; simpl; [|reflexivity].
    destruct (write_binary _ _ e2) as [[[]|?] e3]; simpl; [|reflexivity].
    by rewrite app_nil_r.
  - destruct (find_all_p_text (text resp)) as [paragraphs|?]; simpl;
      [|reflexivity].
    by rewrite app_nil_r.
Qed.

(** A returned content is one of the two dictionaries of the method. *)
Lemma fetch_content_some url w c w' :
  fetch_content url w = (Ok (Some c), w') →
  ∃ resp e1,
    requests_get url (ext w) = (Ok resp, e1)
    ∧ raise_for_status resp = Ok tt
    ∧ ((str_in "application/pdf" (default "" (content_type resp)) = true
        ∧ ∃ s, url = PStr s
               ∧ c = <["type" := PStr "pdf"]>
                       (<["content" :=
                            PStr ("downloads/" +:+ last_segment "/" s)]> ∅))
       ∨ (str_in "application/pdf" (default "" (content_type resp)) = false
          ∧ ∃ paragraphs,
              find_all_p_text (text resp) = Ok paragraphs
              ∧ c = <["type" := PStr "html"]>
                      (<["content" := PStr (str_join " " paragraphs)]> ∅))).
Proof.
  unfold fetch_content, try_except, bind, call, lift, print, ret,
    url_last_segment.
  intros Hf.
  destruct (requests_get url (ext w)) as [[resp|?] e1] eqn:Hget;
    simpl in Hf; [|by simplify_eq].
  destruct (raise_for_status resp) as [[]|?] eqn:Hst;
    simpl in Hf; [|by simplify_eq].
  exists resp, e1. split; [done|]. split; [done|].
  destruct (str_in "application/pdf" (default "" (content_type resp)))
    eqn:Hpdf.
  - left. split; [done|]. simpl in Hf.
    repeat case_match; simplify_eq/=. eauto.
  - right. split; [done|]. simpl in Hf.
    repeat case_match; simplify_eq/=. eauto.
Qed.

(** *** [search_reports] *)





(** [search_reports], with the [try] resolved case by case. *)
Lemma search_reports_spec self query num w :
  search_reports self query num w
  = match cse_list_execute (api_key self) query (cse_id self) num (ext w) with
    | (Raise e, e1) =>
        (Ok [], World (heap w) (stdout w ++ [search_warning e]) e1)
    | (Ok answer, e1) =>
        match py_get answer "items" (PList []) with
        | Raise e =>
            (Ok [], World (heap w) (stdout w ++ [search_warning e]) e1)
        | Ok got =>
            match py_iter got with
            | Raise e =>
                (Ok [], World (heap w) (stdout w ++ [search_warning e]) e1)
            | Ok items =>
                match append_hits items [] with
                | (results, Some e) =>
                    (Ok results,
                     World (heap w) (stdout w ++ [search_warning e]) e1)
                | (results, None) =>
                    (Ok results, World (heap w) (stdout w) e1)
                end
            end
        end
    end.
Proof.
  unfold search_reports, try_except, bind, call, lift, print, ret,
    search_warning.
  destruct (cse_list_execute _ _ _ _ _) as [[answer|?] e1]; simpl; [|done].
  destruct (py_get answer "items" (PList [])) as [got|?]; simpl; [|done].
  destruct (py_iter got) as [items|?]; simpl; [|done].
  by destruct (append_hits items []) as [results [?|]].
Qed.

End RuntimeLemmas.

(** ** The processing loop *)

Section ProcessLemmas.
Context {E : Type} `{!Runtime E} {U : Unicode}.
Implicit Types (w : world E) (d : dict) (url : pyval).

Lemma bind_lift {A B} (a : A) (f : A → M E B) w :
  bind (lift (Ok a)) f w = f a w.
Proof. reflexivity. Qed.

Lemma bind_print {B} line (f : unit → M E B) w :
  bind (print line) f w
  = f tt (World (heap w) (stdout w ++ [line]) (ext w)).
Proof. reflexivity. Qed.

Lemma parsed_no_error content d :
  parsed content = Ok d → d !! "error" = None.
Proof.
  unfold parsed, with_target, with_carbon. intros Hp.
  repeat case_match; simplify_eq; by simplify_map_eq.
Qed.

Lemma validated_no_error d :
  d !! "error" = None → ∃ d', validated d = Ok d'.
Proof.
  intros He. unfold validated, error_list. rewrite He. simpl.
  destruct (missing_messages d); eauto.
Qed.

Lemma parsed_fetched url w c w' :
  fetch_content url w = (Ok (Some c), w') →
  c ≠ ∅ ∧ ∃ d, parsed c = Ok d.
Proof.
  intros Hf. apply fetch_content_some in Hf as (resp & e1 & _ & _ & Hc).
  destruct Hc as [(_ & s & _ & ->)|(_ & ps & _ & ->)].
  - split; [apply insert_non_empty|]. by eexists.
  - split; [apply insert_non_empty|]. by eexists.
Qed.

(** A fetched content is parsed and validated into a new object. *)
Lemma parse_validate (c : dict) w d0 d1 {B} (k : nat → M E B) :
  parsed c = Ok d0 → validated d0 = Ok d1 →
  bind (parse_esg_data c)
    (λ parsed_data, bind (validate_data parsed_data) k) w
  = k (length (heap w)) (World (heap w ++ [d1]) (stdout w) (ext w)).
Proof.
  intros Hp Hv. destruct w as [h o e]; simpl.
  erewrite bind_ok; [|by rewrite parse_esg_data_spec, Hp].
  simpl.
  erewrite bind_ok;
    [|by erewrite validate_data_spec by apply lookup_last; rewrite Hv].
  simpl. by rewrite insert_last.
Qed.


End ProcessLemmas.

(** * Theorems for the specification *)

Section ValidateProperties.
Context {E : Type}.
Implicit Types (w : world E) (r : nat) (d : dict).

(** C1, amended.  For every mapping that [parse_esg_data] can hand over (it
    has no [error] entry yet) with neither [carbon_emissions] nor
    [net_zero_target], [validate_data] returns the object it was given, and
    the list under the key [error] (the source names the key [error], not
    [errors]) is exactly the two messages, carbon emissions first; every
    other key is as before. *)
Theorem validate_data_missing_both w r d :
  heap w !! r = Some d →
  d !! "carbon_emissions" = None →
  d !! "net_zero_target" = None →
  d !! "error" = None →
  ∃ w' d',
    validate_data r w = (Ok r, w')
    ∧ heap w' !! r = Some d'
    ∧ d' !! "error"
      = Some (PList [PStr "Missing carbon emissions data";
                     PStr "Missing net-zero target"])
    ∧ ∀ key, key ≠ "error" → d' !! key = d !! key.
Proof.
  intros Hr Hc Hn He.
  assert (Hv : validated d
               = Ok (<["error" := PList [PStr "Missing carbon emissions data";
                                         PStr "Missing net-zero target"]]> d)).
  { unfold validated, missing_messages, error_list.
    by rewrite Hc, Hn, He. }
  eexists _, _. split; [by rewrite (validate_data_spec w r d Hr), Hv|].
  cbn [heap]. split; [|split].
  - apply list_lookup_insert_eq. by eapply lookup_lt_Some.
  - by rewrite lookup_insert_eq.
  - intros key Hkey. by rewrite lookup_insert_ne.
Qed.

(** C9, amended.  [validate_data] returns the object it was given; it
    removes no key and changes the value of no key other than [error]; the
    list under [error] is only extended at its end, and [error] is the only
    key that can be new.  No other object, nothing printed and nothing
    outside the program changes.  (The mapping's [error] entry, if it has
    one, is a list.) *)
Theorem validate_data_frame w r d l0 :
  heap w !! r = Some d →
  error_list d = PList l0 →
  ∃ w' d' added,
    validate_data r w = (Ok r, w')
    ∧ heap w' !! r = Some d'
    ∧ (∀ key, key ≠ "error" → d' !! key = d !! key)
    ∧ (is_Some (d !! "error") → is_Some (d' !! "error"))
    ∧ error_list d' = PList (l0 ++ added)
    ∧ (∀ r', r' ≠ r → heap w' !! r' = heap w !! r')
    ∧ length (heap w') = length (heap w)
    ∧ stdout w' = stdout w
    ∧ ext w' = ext w.
Proof.
  intros Hr He.
  assert (Hlt : r < length (heap w)) by by eapply lookup_lt_Some.
  rewrite (validate_data_spec w r d Hr).
  unfold validated. rewrite He.
  destruct (missing_messages d) as [|msg msgs] eqn:Hm.
  - exists (World (<[r:=d]> (heap w)) (stdout w) (ext w)), d, [].
    cbn [heap stdout ext]. rewrite app_nil_r, list_insert_id by done.
    by repeat split.
  - exists (World (<[r:=<["error":=PList (l0 ++ msg :: msgs)]> d]> (heap w))
              (stdout w) (ext w)),
      (<["error":=PList (l0 ++ msg :: msgs)]> d), (msg :: msgs).
    cbn [heap stdout ext].
    split; [done|]. split; [by apply list_lookup_insert_eq|].
    split; [by intros key Hkey; rewrite lookup_insert_ne|].
    split; [by rewrite lookup_insert_eq|].
    split; [by unfold error_list; rewrite lookup_insert_eq|].
    split; [by intros r' Hr'; rewrite list_lookup_insert_ne|].
    by rewrite length_insert.
Qed.

(** C10.  [validate_data] is not idempotent: on a mapping that lacks
    [carbon_emissions] or [net_zero_target], a second call on the validated
    object appends the messages of the missing fields once more, so each of
    them is in the list twice.  (The mapping's [error] entry, if it has
    one, is a list [l0].) *)
Theorem validate_data_twice w r d l0 :
  heap w !! r = Some d →
  error_list d = PList l0 →
  d !! "carbon_emissions" = None ∨ d !! "net_zero_target" = None →
  ∃ w1 w2 d1 d2,
    validate_data r w = (Ok r, w1)
    ∧ heap w1 !! r = Some d1
    ∧ d1 !! "error" = Some (PList (l0 ++ missing_messages d))
    ∧ validate_data r w1 = (Ok r, w2)
    ∧ heap w2 !! r = Some d2
    ∧ d2 !! "error"
      = Some (PList (l0 ++ missing_messages d ++ missing_messages d))
    ∧ d2 ≠ d1
    ∧ (d !! "carbon_emissions" = None →
       PStr "Missing carbon emissions data" ∈ missing_messages d)
    ∧ (d !! "net_zero_target" = None →
       PStr "Missing net-zero target" ∈ missing_messages d).
Proof.
  intros Hr He Hmiss.
  assert (Hlt : r < length (heap w)) by by eapply lookup_lt_Some.
  assert (Hne : missing_messages d ≠ []).
  { unfold missing_messages. destruct Hmiss as [H|H]; rewrite H; simpl.
    - done.
    - by destruct (bool_decide _). }
  set (d1 := <["error" := PList (l0 ++ missing_messages d)]> d).
  set (d2 := <["error" :=
                 PList (l0 ++ missing_messages d ++ missing_messages d)]> d).
  assert (Hv1 : validated d = Ok d1).
  { unfold validated. rewrite He.
    by destruct (missing_messages d) eqn:Hm. }
  assert (Hm1 : missing_messages d1 = missing_messages d).
  { unfold missing_messages, d1. by rewrite !lookup_insert_ne. }
  assert (Hv2 : validated d1 = Ok d2).
  { assert (He1 : error_list d1 = PList (l0 ++ missing_messages d))
      by by unfold error_list, d1; rewrite lookup_insert_eq.
    unfold validated. rewrite Hm1, He1.
    destruct (missing_messages d) eqn:Hm; [done|].
    unfold d1, d2. by rewrite insert_insert_eq, <- app_assoc. }
  set (w1 := World (<[r:=d1]> (heap w)) (stdout w) (ext w)).
  assert (Hr1 : heap w1 !! r = Some d1) by by apply list_lookup_insert_eq.
  exists w1, (World (<[r:=d2]> (heap w1)) (stdout w1) (ext w1)), d1, d2.
  split; [by rewrite (validate_data_spec w r d Hr), Hv1|].
  split; [done|].
  split; [by unfold d1; rewrite lookup_insert_eq|].
  split; [by rewrite (validate_data_spec w1 r d1 Hr1), Hv2|].
  split.
  { cbn [heap]. apply list_lookup_insert_eq.
    unfold w1; cbn [heap]. by rewrite length_insert. }
  split; [by unfold d2; rewrite lookup_insert_eq|].
  split.
  { intros Heq. apply (f_equal (λ m : dict, m !! "error")) in Heq.
    unfold d1, d2 in Heq. rewrite !lookup_insert_eq in Heq.
    simplify_eq. apply (f_equal length) in Heq.
    rewrite !length_app in Heq.
    destruct (missing_messages d); [done|simpl in Heq; lia]. }
  unfold missing_messages. split; intros ->; simpl.
  - apply elem_of_cons. by left.
  - apply elem_of_app. right. apply elem_of_cons. by left.
Qed.
End ValidateProperties.

Section ParseProperties.
Context {E : Type} {U : Unicode}.
Implicit Types (w : world E) (r : nat) (d content : dict).

(** C5.  For a content whose [type] is [pdf], whatever else it holds,
    [parse_esg_data] returns a new mapping with the single entry
    [note], and [validate_data] on that mapping adds both missing-field
    messages under [error] and keeps the note. *)
Theorem pdf_note_and_both_errors content w :
  content !! "type" = Some (PStr "pdf") →
  ∃ w1 w2,
    parse_esg_data content w = (Ok (length (heap w)), w1)
    ∧ heap w1 !! length (heap w)
      = Some (<["note" := PStr "PDF parsing not implemented yet"]> ∅)
    ∧ validate_data (length (heap w)) w1 = (Ok (length (heap w)), w2)
    ∧ heap w2 !! length (heap w)
      = Some (<["error" := PList [PStr "Missing carbon emissions data";
                                  PStr "Missing net-zero target"]]>
                (<["note" := PStr "PDF parsing not implemented yet"]> ∅)).
Proof.
  intros Htype.
  set (note := <["note" := PStr "PDF parsing not implemented yet"]> ∅ : dict).
  assert (Hp : parsed content = Ok note).
  { unfold parsed, getitem. by rewrite Htype. }
  set (w1 := World (heap w ++ [note]) (stdout w) (ext w)).
  assert (Hr1 : heap w1 !! length (heap w) = Some note) by apply lookup_last.
  set (both := <["error" := PList [PStr "Missing carbon emissions data";
                                   PStr "Missing net-zero target"]]> note).
  assert (Hv : validated note = Ok both) by reflexivity.
  exists w1, (World (heap w ++ [both]) (stdout w) (ext w)).
  split; [by rewrite parse_esg_data_spec, Hp|].
  split; [done|].
  split.
  - rewrite (validate_data_spec w1 _ note Hr1), Hv.
    unfold w1; cbn [heap stdout ext]. by rewrite insert_last.
  - apply lookup_last.
Qed.

(** C7, amended.  For an html content whose payload holds the phrase
    [carbon emissions skyrocketed to 1,234 metric tons] with no match of the
    emissions pattern starting before it, [parse_esg_data] stores
    [carbon_emissions = "1,234 metric tons"]: the groups of the leftmost
    match, the figure and the unit as they are written in the text.  An
    earlier match counts in whatever characters [re.IGNORECASE] accepts,
    such as a keyword written with a long s. *)
Theorem parse_esg_data_skyrocketed content pre suf w :
  content !! "type" = Some (PStr "html") →
  content !! "content"
  = Some (PStr (pre +:+ "carbon emissions skyrocketed to 1,234 metric tons"
                    +:+ suf)) →
  no_match_before carbon_pattern pre
    ("carbon emissions skyrocketed to 1,234 metric tons" +:+ suf) = true →
  ∃ w' d,
    parse_esg_data content w = (Ok (length (heap w)), w')
    ∧ heap w' !! length (heap w) = Some d
    ∧ d !! "carbon_emissions" = Some (PStr "1,234 metric tons").
Proof.
  intros Htype Hcontent Hpre.
  pose proof (re_search_leftmost _ _ _ _ Hpre (match_here_skyrocketed suf))
    as Hsearch.
  rewrite parse_esg_data_spec. unfold parsed, getitem.
  rewrite Htype, Hcontent. cbn [py_eq_str String.eqb Ascii.eqb Bool.eqb].
  cbn [py_re_search]. rewrite Hsearch.
  eexists _, _. split; [done|]. cbn [heap]. split; [apply lookup_last|].
  unfold with_target, with_carbon.
  destruct (re_search net_zero_pattern _);
    by rewrite ?lookup_insert_ne, lookup_insert_eq by done.
Qed.

(** C8.  [parse_esg_data] applied twice to the same content yields equal
    mappings: two distinct new objects with the same entries, the first one
    untouched by the second call; if the first call raises, the second
    raises the same exception. *)
Theorem parse_esg_data_repeatable content w :
  (∃ r1 r2 w1 w2 d,
     parse_esg_data content w = (Ok r1, w1)
     ∧ parse_esg_data content w1 = (Ok r2, w2)
     ∧ r1 ≠ r2
     ∧ heap w1 !! r1 = Some d
     ∧ heap w2 !! r1 = Some d
     ∧ heap w2 !! r2 = Some d)
  ∨ (∃ e w1 w2,
       parse_esg_data content w = (Raise e, w1)
       ∧ parse_esg_data content w1 = (Raise e, w2)).
Proof.
  rewrite parse_esg_data_spec.
  destruct (parsed content) as [d|e] eqn:Hp.
  - left. eexists _, _, _, _, d. split; [done|].
    rewrite parse_esg_data_spec, Hp. cbn [heap stdout ext].
    split; [done|]. rewrite length_app. simpl.
    split; [lia|]. split; [apply lookup_last|].
    split.
    + apply lookup_app_l_Some, lookup_last.
    + replace (length (heap w) + 1) with (length (heap w ++ [d]))
        by (rewrite length_app; simpl; lia).
      apply lookup_last.
  - right. eexists _, _, _. split; [done|].
    by rewrite parse_esg_data_spec, Hp.
Qed.
End ParseProperties.

Section PipelineProperties.
Context {E : Type} `{!Runtime E} {U : Unicode}.
Implicit Types (w : world E) (url : pyval) (self : ESGSearcher).




End PipelineProperties.

(** * The theorems on concrete inputs *)

(** C1 on the empty mapping. *)
Lemma validate_data_missing_both_witness :
  heap (World [∅] [] tt) !! 0 = Some (∅ : dict)
  ∧ ∃ (w' : world unit) d',
      validate_data 0 (World [∅] [] tt) = (Ok 0, w')
      ∧ heap w' !! 0 = Some d'
      ∧ d' !! "error"
        = Some (PList [PStr "Missing carbon emissions data";
                       PStr "Missing net-zero target"])
      ∧ ∀ key, key ≠ "error" → d' !! key = (∅ : dict) !! key.
Proof.
  split; [reflexivity|].
  apply (validate_data_missing_both (World [∅] [] tt) 0 ∅); reflexivity.
Defined.

(** C1 as stated fails on the empty mapping: after [validate_data] there is
    no list under the key [errors]. *)
Lemma validate_data_no_errors_key :
  ¬ ∃ (w' : world unit) d',
      validate_data 0 (World [∅] [] tt) = (Ok 0, w')
      ∧ heap w' !! 0 = Some d'
      ∧ d' !! "errors"
        = Some (PList [PStr "Missing carbon emissions data";
                       PStr "Missing net-zero target"]).
Proof.
  intros (w' & d' & Hrun & Hr & Herrors).
  rewrite (validate_data_spec _ 0 ∅) in Hrun by reflexivity.
  change (validated ∅)
    with (Ok (<["error" := PList [PStr "Missing carbon emissions data";
                                  PStr "Missing net-zero target"]]> (∅ : dict)))
    in Hrun.
  simplify_eq/=.
Qed.

(** C5 on the content of a downloaded report. *)
Lemma pdf_note_and_both_errors_witness :
  let content : dict :=
    <["type" := PStr "pdf"]> (<["content" := PStr "downloads/report.pdf"]> ∅) in
  content !! "type" = Some (PStr "pdf")
  ∧ ∃ (w1 w2 : world unit),
      parse_esg_data content (World [] [] tt) = (Ok 0, w1)
      ∧ heap w1 !! 0
        = Some (<["note" := PStr "PDF parsing not implemented yet"]> ∅)
      ∧ validate_data 0 w1 = (Ok 0, w2)
      ∧ heap w2 !! 0
        = Some (<["error" := PList [PStr "Missing carbon emissions data";
                                    PStr "Missing net-zero target"]]>
                  (<["note" := PStr "PDF parsing not implemented yet"]> ∅)).
Proof.
  intros content. split; [reflexivity|].
  apply (pdf_note_and_both_errors content (World [] [] tt)). reflexivity.
Defined.

(** C7 on a page that states the figure once. *)
Lemma parse_esg_data_skyrocketed_witness :
  let content : dict :=
    <["type" := PStr "html"]>
      (<["content" :=
           PStr ("In 2023 our "
                 +:+ "carbon emissions skyrocketed to 1,234 metric tons"
                 +:+ " overall.")]> ∅) in
  no_match_before carbon_pattern "In 2023 our "
    ("carbon emissions skyrocketed to 1,234 metric tons" +:+ " overall.")
  = true
  ∧ ∃ (w' : world unit) d,
      parse_esg_data content (World [] [] tt) = (Ok 0, w')
      ∧ heap w' !! 0 = Some d
      ∧ d !! "carbon_emissions" = Some (PStr "1,234 metric tons").
Proof.
  intros content. split; [vm_compute; reflexivity|].
  apply (parse_esg_data_skyrocketed content "In 2023 our " " overall."
           (World [] [] tt)).
  - reflexivity.
  - reflexivity.
  - vm_compute; reflexivity.
Defined.

(** C7 as stated fails when an earlier figure matches first: the payload
    contains the phrase, and the stored value is the earlier figure. *)
Lemma parse_esg_data_earlier_figure :
  let payload :=
    "carbon emissions 5 MT; carbon emissions skyrocketed to 1,234 metric tons" in
  let content : dict :=
    <["type" := PStr "html"]> (<["content" := PStr payload]> ∅) in
  str_in "carbon emissions skyrocketed to 1,234 metric tons" payload = true
  ∧ ∃ (w' : world unit) d,
      parse_esg_data content (World [] [] tt) = (Ok 0, w')
      ∧ heap w' !! 0 = Some d
      ∧ d !! "carbon_emissions" = Some (PStr "5 MT")
      ∧ d !! "carbon_emissions" ≠ Some (PStr "1,234 metric tons").
Proof.
  intros payload content. split; [vm_compute; reflexivity|].
  eexists _, _. split; [vm_compute; reflexivity|].
  split; [reflexivity|]. split; [vm_compute; reflexivity|].
  vm_compute. intros H. discriminate H.
Qed.

(** C9 on a mapping with a list under [error]. *)
Lemma validate_data_frame_witness :
  let d : dict := <["error" := PList [PStr "unreadable"]]>
                    (<["carbon_emissions" := PStr "5 MT"]> ∅) in
  heap (World [d] [] tt) !! 0 = Some d
  ∧ error_list d = PList [PStr "unreadable"]
  ∧ ∃ (w' : world unit) d' added,
      validate_data 0 (World [d] [] tt) = (Ok 0, w')
      ∧ heap w' !! 0 = Some d'
      ∧ (∀ key, key ≠ "error" → d' !! key = d !! key)
      ∧ (is_Some (d !! "error") → is_Some (d' !! "error"))
      ∧ error_list d' = PList ([PStr "unreadable"] ++ added)
      ∧ (∀ r', r' ≠ 0 → heap w' !! r' = heap (World [d] [] tt) !! r')
      ∧ length (heap w') = length (heap (World [d] [] tt))
      ∧ stdout w' = stdout (World [d] [] tt)
      ∧ ext w' = ext (World [d] [] tt).
Proof.
  intros d. split; [reflexivity|]. split; [reflexivity|].
  apply (validate_data_frame (World [d] [] tt) 0 d [PStr "unreadable"]);
    reflexivity.
Defined.

(** C9 as stated fails on a mapping that was validated before: [error] was
    present before the call and its value is not the same after it. *)
Lemma validate_data_changes_error_entry :
  let d : dict := <["error" := PList [PStr "Missing carbon emissions data";
                                      PStr "Missing net-zero target"]]> ∅ in
  ∃ (w' : world unit) d',
    validate_data 0 (World [d] [] tt) = (Ok 0, w')
    ∧ heap w' !! 0 = Some d'
    ∧ is_Some (d !! "error")
    ∧ d' !! "error" ≠ d !! "error".
Proof.
  intros d. eexists _, _. split; [vm_compute; reflexivity|].
  split; [reflexivity|]. split; [by eexists|].
  vm_compute. intros H. discriminate H.
Qed.

(** C10 on the empty mapping. *)
Lemma validate_data_twice_witness :
  heap (World [∅] [] tt) !! 0 = Some (∅ : dict)
  ∧ error_list ∅ = PList []
  ∧ ((∅ : dict) !! "carbon_emissions" = None
     ∨ (∅ : dict) !! "net_zero_target" = None)
  ∧ ∃ (w1 w2 : world unit) d1 d2,
      validate_data 0 (World [∅] [] tt) = (Ok 0, w1)
      ∧ heap w1 !! 0 = Some d1
      ∧ d1 !! "error" = Some (PList ([] ++ missing_messages ∅))
      ∧ validate_data 0 w1 = (Ok 0, w2)
      ∧ heap w2 !! 0 = Some d2
      ∧ d2 !! "error"
        = Some (PList ([] ++ missing_messages ∅ ++ missing_messages ∅))
      ∧ d2 ≠ d1
      ∧ ((∅ : dict) !! "carbon_emissions" = None →
         PStr "Missing carbon emissions data" ∈ missing_messages ∅)
      ∧ ((∅ : dict) !! "net_zero_target" = None →
         PStr "Missing net-zero target" ∈ missing_messages ∅).
Proof.
  split; [reflexivity|]. split; [reflexivity|]. split; [by left|].
  apply (validate_data_twice (World [∅] [] tt) 0 ∅ []).
  - reflexivity.
  - reflexivity.
  - by left.
Defined.








(** * Further properties of the methods *)

(** ** The matcher against the patterns' meaning *)

Lemma append_assoc (a b c : string) : (a +:+ b) +:+ c = a +:+ (b +:+ c).
Proof.
  induction a as [|x a IH]; [done|].
  change (String x ((a +:+ b) +:+ c) = String x (a +:+ (b +:+ c))).
  by rewrite IH.
Qed.

Lemma star_match_sound {R} p s (k : string → option R) x :
  star_match p s k = Some x →
  ∃ s1 s', s = s1 +:+ s' ∧ all_chars p s1 = true ∧ k s' = Some x.
Proof.
  revert x. induction s as [|c s IH]; intros x; simpl.
  - intros Hk. by exists "", "".
  - destruct (p c) eqn:Hp.
    + destruct (star_match p s k) as [y|] eqn:Hs.
      * intros [= <-]. destruct (IH y eq_refl) as (s1 & s' & -> & Hall & Hk).
        exists (String c s1), s'. simpl. by rewrite Hp, Hall.
      * intros Hk. by exists "", (String c s).
    + intros Hk. by exists "", (String c s).
Qed.

(** Whatever the matcher accepts, the pattern matches: the text it consumed
    is a text of the pattern, and the groups are the ones that text sets. *)
Lemma rmatch_sound {R} r :
  ∀ s caps (k : string → gmap nat string → option R) x,
    rmatch r s caps k = Some x →
    ∃ s1 s' caps',
      s = s1 +:+ s' ∧ lang r s1 caps caps' ∧ k s' caps' = Some x.
Proof.
  induction r as [|p|p|r1 IH1 r2 IH2|r1 IH1 r2 IH2|p|n r IH];
    intros s caps k x; cbn [rmatch].
  - intros Hk. exists "", s, caps. by repeat split; [constructor|].
  - destruct s as [|c s]; [done|]. destruct (p c) eqn:Hp; [|done].
    intros Hk. exists (String c ""), s, caps.
    by repeat split; [constructor|].
  - destruct (utf8_head s) as [[ch s']|] eqn:Hh; [|done].
    destruct (p ch) eqn:Hp; [|done]. intros Hk.
    destruct (utf8_head_split _ _ _ Hh) as (s1 & -> & H1).
    exists s1, s', caps. by repeat split; [econstructor|].
  - intros H. apply IH1 in H as (a & s1 & caps1 & -> & Ha & H).
    apply IH2 in H as (b & s' & caps2 & -> & Hb & Hk).
    exists (a +:+ b), s', caps2. rewrite append_assoc.
    by repeat split; [econstructor|].
  - destruct (rmatch r1 s caps k) as [y|] eqn:H1.
    + intros [= <-]. apply IH1 in H1 as (a & s' & caps' & -> & Ha & Hk).
      exists a, s', caps'. by repeat split; [apply lang_alt_l|].
    + intros H. apply IH2 in H as (a & s' & caps' & -> & Ha & Hk).
      exists a, s', caps'. by repeat split; [apply lang_alt_r|].
  - intros H. apply star_match_sound in H as (s1 & s' & -> & Hall & Hk).
    exists s1, s', caps. by repeat split; [constructor|].
  - intros H. apply IH in H as (s1 & s' & caps' & -> & Hs1 & Hk).
    rewrite consumed_append in Hk.
    exists s1, s', (<[n := s1]> caps'). by repeat split; [constructor|].
Qed.

Lemma match_here_sound r s m :
  match_here r s = Some m → ∃ s1 s', s = s1 +:+ s' ∧ lang r s1 ∅ m.
Proof.
  intros H. apply rmatch_sound in H as (s1 & s' & caps' & -> & Hl & [= <-]).
  eauto.
Qed.

Lemma re_search_sound r s m :
  re_search r s = Some m →
  ∃ pre s1 suf, s = pre +:+ s1 +:+ suf ∧ lang r s1 ∅ m.
Proof.
  induction s as [|c s IH]; simpl.
  - destruct (match_here r "") as [m'|] eqn:Hm; [|done].
    intros [= <-]. apply match_here_sound in Hm as (s1 & s' & Hs & Hl).
    exists "", s1, s'. by split.
  - destruct (match_here r (String c s)) as [m'|] eqn:Hm.
    + intros [= <-]. apply match_here_sound in Hm as (s1 & s' & Hs & Hl).
      exists "", s1, s'. by split.
    + intros H. apply IH in H as (pre & s1 & suf & -> & Hl).
      exists (String c pre), s1, suf. by split.
Qed.

Lemma lang_star_inv p s caps caps' :
  lang (Star p) s caps caps' → caps' = caps ∧ all_chars p s = true.
Proof. by inversion 1. Qed.

Lemma lang_chr_inv p s caps caps' :
  lang (Chr p) s caps caps' → ∃ c, s = String c "" ∧ p c = true ∧ caps' = caps.
Proof. inversion 1; subst. eauto. Qed.

Lemma lang_uni_inv p s caps caps' :
  lang (Uni p) s caps caps' →
  ∃ ch, utf8_head s = Some (ch, "") ∧ p ch = true ∧ caps' = caps.
Proof. inversion 1; subst. eauto. Qed.

Lemma lang_cat_inv r1 r2 s caps caps' :
  lang (Cat r1 r2) s caps caps' →
  ∃ s1 s2 caps1, s = s1 +:+ s2 ∧ lang r1 s1 caps caps1 ∧ lang r2 s2 caps1 caps'.
Proof. inversion 1; subst. eauto 10. Qed.

Lemma lang_alt_inv r1 r2 s caps caps' :
  lang (Alt r1 r2) s caps caps' → lang r1 s caps caps' ∨ lang r2 s caps caps'.
Proof. inversion 1; subst; eauto. Qed.

Lemma lang_group_inv n r s caps caps' :
  lang (Group n r) s caps caps' →
  ∃ caps1, lang r s caps caps1 ∧ caps' = <[n := s]> caps1.
Proof. inversion 1; subst. eauto. Qed.

(** A literal sets no group and matches the texts that are the literal as
    [re.IGNORECASE] reads it. *)
Lemma lang_lit t s caps caps' :
  lang (lit t) s caps caps' → caps' = caps ∧ ci_match s t = true.
Proof.
  revert s caps caps'.
  induction t as [|c t IH]; intros s caps caps' H; cbn [lit] in H.
  - by inversion H.
  - apply lang_cat_inv in H as (s1 & s2 & caps1 & -> & H1 & H2).
    apply lang_uni_inv in H1 as (ch & Hh & Hch & ->).
    apply IH in H2 as [-> Hci]. split; [done|].
    cbn [ci_match]. rewrite (utf8_head_append _ _ _ s2 Hh).
    by rewrite Hch.
Qed.

(** Only the space matches the space of a pattern. *)
Lemma matches_literal_space ch : matches_literal " " ch = true → ch = 32%N.
Proof.
  unfold matches_literal, ascii_lower.
  change (N_of_ascii " ") with 32%N. cbn [N.leb N.eqb Pos.eqb N.compare
    Pos.compare Pos.compare_cont andb orb].
  rewrite !orb_false_r. intros [_ H]%andb_prop. apply N.eqb_eq in H.
  destruct (N.leb_spec 65 ch), (N.leb_spec ch 90); simpl in H; lia.
Qed.

Lemma ci_match_space s : ci_match s " " = true → s = " ".
Proof.
  cbn [ci_match]. destruct (utf8_head s) as [[ch s']|] eqn:Hh; [|done].
  intros [Hch Hs']%andb_prop. destruct s'; [|done].
  apply matches_literal_space in Hch as ->.
  by apply utf8_head_ascii_inv in Hh.
Qed.

Lemma all_chars_append p a b :
  all_chars p (a +:+ b) = all_chars p a && all_chars p b.
Proof.
  induction a as [|x a IH]; [done|].
  change (String x a +:+ b) with (String x (a +:+ b)). simpl.
  by rewrite IH, andb_assoc.
Qed.

Lemma decimal_digits_cons {U : Unicode} n a ch s :
  utf8_head a = Some (ch, "") → is_decimal ch = true →
  decimal_digits n s = true → decimal_digits (S n) (a +:+ s) = true.
Proof.
  intros Hh Hch Hs. cbn [decimal_digits].
  rewrite (utf8_head_append _ _ _ s Hh). by rewrite Hch.
Qed.

(** A match of the target pattern: the keyword as [re.IGNORECASE] reads it,
    then four decimal digits, which are group 1. *)
Lemma lang_net_zero {U : Unicode} s m :
  lang net_zero_pattern s ∅ m →
  ∃ keyword year,
    s = keyword +:+ year ∧ m = <[1 := year]> ∅
    ∧ ci_match keyword "net-zero by " = true
    ∧ decimal_digits 4 year = true.
Proof.
  unfold net_zero_pattern. intros H.
  apply lang_cat_inv in H as (keyword & s2 & caps1 & -> & Hlit & H).
  apply lang_lit in Hlit as [-> Hkw].
  apply lang_group_inv in H as (caps2 & H & ->).
  apply lang_cat_inv in H as (a & s3 & c1 & -> & Ha & H).
  apply lang_cat_inv in H as (b & s4 & c2 & -> & Hb & H).
  apply lang_cat_inv in H as (c & d & c3 & -> & Hc & Hd).
  apply lang_uni_inv in Ha as (x1 & Ha & H1 & ->).
  apply lang_uni_inv in Hb as (x2 & Hb & H2 & ->).
  apply lang_uni_inv in Hc as (x3 & Hc & H3 & ->).
  apply lang_uni_inv in Hd as (x4 & Hd & H4 & ->).
  eexists keyword, _. split; [done|]. split; [done|]. split; [done|].
  repeat (eapply decimal_digits_cons; [done|done|]).
  cbn [decimal_digits]. by rewrite Hd, H4.
Qed.

(** A match of the emissions pattern: the keyword as [re.IGNORECASE] reads
    it, a filler without the digits [0] to [9], a non-empty run of those
    digits and commas (group 1), one space, and one of the three units as
    [re.IGNORECASE] reads them (group 2). *)
Lemma lang_carbon s m :
  lang carbon_pattern s ∅ m →
  ∃ keyword filler figure unit,
    s = keyword +:+ filler +:+ figure +:+ " " +:+ unit
    ∧ m = <[2 := unit]> (<[1 := figure]> ∅)
    ∧ ci_match keyword "carbon emissions" = true
    ∧ all_chars (λ c, negb (is_digit c)) filler = true
    ∧ figure ≠ "" ∧ all_chars digit_or_comma figure = true
    ∧ (ci_match unit "metric tons" = true ∨ ci_match unit "MT" = true
       ∨ ci_match unit "tCO2e" = true).
Proof.
  unfold carbon_pattern. intros H.
  apply lang_cat_inv in H as (keyword & s2 & caps1 & -> & Hlit & H).
  apply lang_lit in Hlit as [-> Hkw].
  apply lang_cat_inv in H as (filler & s3 & caps2 & -> & Hfill & H).
  apply lang_star_inv in Hfill as [-> Hfill].
  apply lang_cat_inv in H as (figure & s4 & caps3 & -> & Hfig & H).
  apply lang_group_inv in Hfig as (caps4 & Hfig & ->).
  apply lang_cat_inv in Hfig as (a & b & c1 & -> & Ha & Hb).
  apply lang_chr_inv in Ha as (x & -> & Hx & ->).
  apply lang_star_inv in Hb as [-> Hb].
  apply lang_cat_inv in H as (sp & unit & caps5 & -> & Hsp & H).
  apply lang_lit in Hsp as [-> Hsp]. apply ci_match_space in Hsp as ->.
  apply lang_group_inv in H as (caps6 & Hunit & ->).
  change (String x "" +:+ b) with (String x b) in *.
  exists keyword, filler, (String x b), unit.
  assert (Hu : caps6 = <[1 := String x b]> ∅
               ∧ (ci_match unit "metric tons" = true
                  ∨ ci_match unit "MT" = true
                  ∨ ci_match unit "tCO2e" = true)).
  { apply lang_alt_inv in Hunit as [H1|H1];
      [|apply lang_alt_inv in H1 as [H1|H1]];
      apply lang_lit in H1 as [-> ?]; eauto. }
  destruct Hu as [-> Hu].
  repeat split; try done. simpl. by rewrite Hx, Hb.
Qed.

(** A character of a text is a character of every text that ends with
    it. *)
Lemma some_char_head p s ch s' :
  utf8_head s = Some (ch, s') → p ch = true → some_char p s = true.
Proof.
  intros Hh Hp. destruct s as [|c s]; [done|].
  cbn [some_char]. by rewrite Hh, Hp.
Qed.

Lemma some_char_append_r p a b :
  some_char p b = true → some_char p (a +:+ b) = true.
Proof.
  intros Hb. induction a as [|c a IH]; [done|].
  rewrite append_cons. cbn [some_char]. by rewrite IH, orb_true_r.
Qed.

Lemma digit_or_comma_figure_char c :
  digit_or_comma c = true →
  (N_of_ascii c < 128)%N ∧ figure_char (N_of_ascii c) = true.
Proof.
  unfold digit_or_comma, is_digit, figure_char.
  intros [[H1 H2]%andb_prop|H]%orb_prop.
  - apply N.leb_le in H2. split; [lia|]. by rewrite H1, (proj2 (N.leb_le _ _) H2).
  - apply Ascii.eqb_eq in H as ->. by split.
Qed.

Section ParseFormat.
Context {E : Type} {U : Unicode}.
Implicit Types (w : world E) (r : nat) (d content : dict).

(** The object [parse_esg_data] returns is new and holds the entries of
    [parsed]. *)
Lemma parse_esg_data_returns content w r w' :
  parse_esg_data content w = (Ok r, w') →
  ∃ d, parsed content = Ok d
       ∧ r = length (heap w)
       ∧ w' = World (heap w ++ [d]) (stdout w) (ext w).
Proof.
  rewrite parse_esg_data_spec.
  destruct (parsed content) as [d|]; [|done]. intros [= <- <-]. eauto.
Qed.

(** The entries of a parsed html content, from the two searches. *)
Lemma parsed_html content d :
  parsed content = Ok d →
  content !! "type" = Some (PStr "html") →
  ∃ payload,
    content !! "content" = Some (PStr payload)
    ∧ d = with_target (re_search net_zero_pattern payload)
            (with_carbon (re_search carbon_pattern payload) ∅).
Proof.
  unfold parsed, getitem. intros Hp Htype. rewrite Htype in Hp.
  cbn [py_eq_str String.eqb Ascii.eqb Bool.eqb] in Hp.
  destruct (content !! "content") as [[]|]; simplify_eq/=. eauto.
Qed.

Lemma parsed_target content d v :
  parsed content = Ok d → d !! "net_zero_target" = Some v →
  ∃ payload m,
    content !! "type" = Some (PStr "html")
    ∧ content !! "content" = Some (PStr payload)
    ∧ re_search net_zero_pattern payload = Some m
    ∧ v = PStr (group m 1).
Proof.
  unfold parsed, getitem. intros Hp Hv.
  destruct (content !! "type") as [type|] eqn:Htype; [|done].
  destruct (py_eq_str type "html") eqn:Hhtml.
  - destruct type as [|t| | |]; try done.
    apply String.eqb_eq in Hhtml as ->.
    destruct (content !! "content") as [[|payload| | |]|]; simplify_eq/=.
    destruct (re_search net_zero_pattern payload) as [m|] eqn:Hm.
    + simpl in Hv. rewrite lookup_insert_eq in Hv. simplify_eq. eauto 10.
    + simpl in Hv. destruct (re_search carbon_pattern payload);
        simpl in Hv; by simplify_map_eq.
  - destruct (py_eq_str type "pdf"); simplify_eq; by simplify_map_eq.
Qed.

Lemma parsed_carbon content d v :
  parsed content = Ok d → d !! "carbon_emissions" = Some v →
  ∃ payload m,
    content !! "type" = Some (PStr "html")
    ∧ content !! "content" = Some (PStr payload)
    ∧ re_search carbon_pattern payload = Some m
    ∧ v = PStr (group m 1 +:+ " " +:+ group m 2).
Proof.
  unfold parsed, getitem. intros Hp Hv.
  destruct (content !! "type") as [type|] eqn:Htype; [|done].
  destruct (py_eq_str type "html") eqn:Hhtml.
  - destruct type as [|t| | |]; try done.
    apply String.eqb_eq in Hhtml as ->.
    destruct (content !! "content") as [[|payload| | |]|]; simplify_eq/=.
    assert (Hc : with_carbon (re_search carbon_pattern payload) ∅
                 !! "carbon_emissions" = Some v).
    { destruct (re_search net_zero_pattern payload); simpl in Hv;
        by rewrite ?lookup_insert_ne in Hv. }
    destruct (re_search carbon_pattern payload) as [m|] eqn:Hm.
    + simpl in Hc. rewrite lookup_insert_eq in Hc. simplify_eq. eauto 10.
    + by simplify_map_eq.
  - destruct (py_eq_str type "pdf"); simplify_eq; by simplify_map_eq.
Qed.

(** X1.  A stored target year is four decimal digits read from the
    payload, after the keyword: four characters that [\d] accepts, which
    need not be the digits [0] to [9]. *)
Theorem net_zero_target_is_four_digits content w r w' d v :
  parse_esg_data content w = (Ok r, w') →
  heap w' !! r = Some d →
  d !! "net_zero_target" = Some v →
  ∃ pre keyword year suf,
    v = PStr year
    ∧ decimal_digits 4 year = true
    ∧ ci_match keyword "net-zero by " = true
    ∧ content !! "content" = Some (PStr (pre +:+ keyword +:+ year +:+ suf)).
Proof.
  intros Hrun Hr Hv.
  apply parse_esg_data_returns in Hrun as (d0 & Hp & -> & ->).
  cbn [heap] in Hr. rewrite lookup_last in Hr. simplify_eq.
  destruct (parsed_target _ _ _ Hp Hv) as (payload & m & _ & Hc & Hm & ->).
  apply re_search_sound in Hm as (pre & s1 & suf & -> & Hl).
  apply lang_net_zero in Hl as (keyword & year & -> & -> & Hkw & Hd).
  exists pre, keyword, year, suf.
  unfold group. rewrite lookup_insert_eq. simpl.
  by rewrite Hc, !append_assoc.
Qed.

(** X2.  A stored emissions value is a figure, a space and a unit read from
    the payload: the unit is one of the three as [re.IGNORECASE] reads
    them, in the characters of the text. *)
Theorem carbon_emissions_is_figure_and_unit content w r w' d v :
  parse_esg_data content w = (Ok r, w') →
  heap w' !! r = Some d →
  d !! "carbon_emissions" = Some v →
  ∃ pre keyword filler figure unit suf,
    v = PStr (figure +:+ " " +:+ unit)
    ∧ figure ≠ "" ∧ all_chars digit_or_comma figure = true
    ∧ (ci_match unit "metric tons" = true ∨ ci_match unit "MT" = true
       ∨ ci_match unit "tCO2e" = true)
    ∧ ci_match keyword "carbon emissions" = true
    ∧ all_chars (λ c, negb (is_digit c)) filler = true
    ∧ content !! "content"
      = Some (PStr (pre +:+ keyword +:+ filler +:+ figure +:+ " " +:+ unit
                        +:+ suf)).
Proof.
  intros Hrun Hr Hv.
  apply parse_esg_data_returns in Hrun as (d0 & Hp & -> & ->).
  cbn [heap] in Hr. rewrite lookup_last in Hr. simplify_eq.
  destruct (parsed_carbon _ _ _ Hp Hv) as (payload & m & _ & Hc & Hm & ->).
  apply re_search_sound in Hm as (pre & s1 & suf & -> & Hl).
  apply lang_carbon in Hl
    as (keyword & filler & figure & unit & -> & -> & Hkw & Hfill & Hne
        & Hfig & Hunit).
  exists pre, keyword, filler, figure, unit, suf.
  unfold group. rewrite lookup_insert_eq, lookup_insert_ne by done.
  rewrite lookup_insert_eq. simpl.
  repeat split; try done. by rewrite Hc, !append_assoc.
Qed.

Lemma with_fields_lookup nm cm (key : string) (v : pyval) :
  with_target nm (with_carbon cm ∅) !! key = Some v →
  (key = "carbon_emissions" ∨ key = "net_zero_target") ∧ ∃ s, v = PStr s.
Proof.
  unfold with_target, with_carbon. intros H.
  destruct (decide (key = "net_zero_target")) as [Hn|Hn];
    destruct (decide (key = "carbon_emissions")) as [Hc|Hc];
    subst; try done;
    destruct nm, cm;
    repeat first [ rewrite lookup_insert_eq in H
                 | rewrite lookup_insert_ne in H by done
                 | rewrite lookup_empty in H ];
    simplify_eq; eauto.
Qed.

(** X3.  The keys [parse_esg_data] can set. *)
Theorem parse_esg_data_schema content w r w' d :
  parse_esg_data content w = (Ok r, w') →
  heap w' !! r = Some d →
  (∀ key v, d !! key = Some v →
     (key = "carbon_emissions" ∨ key = "net_zero_target" ∨ key = "note")
     ∧ ∃ s, v = PStr s)
  ∧ (is_Some (d !! "note") ↔ content !! "type" = Some (PStr "pdf"))
  ∧ (is_Some (d !! "note") →
     d = <["note" := PStr "PDF parsing not implemented yet"]> ∅).
Proof.
  intros Hrun Hr.
  apply parse_esg_data_returns in Hrun as (d0 & Hp & -> & ->).
  cbn [heap] in Hr. rewrite lookup_last in Hr. simplify_eq.
  unfold parsed, getitem in Hp.
  destruct (content !! "type") as [type|] eqn:Htype; [|done].
  destruct (py_eq_str type "html") eqn:Hhtml.
  - destruct type as [|t| | |]; try done.
    apply String.eqb_eq in Hhtml as ->.
    destruct (content !! "content") as [[|payload| | |]|]; simplify_eq/=.
    assert (Hnote : ¬ is_Some
              (with_target (re_search net_zero_pattern payload)
                 (with_carbon (re_search carbon_pattern payload) ∅)
               !! "note")).
    { intros [v Hv]. apply with_fields_lookup in Hv as [[?|?] _]; done. }
    split; [|split].
    + intros key v Hkv. apply with_fields_lookup in Hkv as [[?|?] ?]; eauto.
    + split; [done|]. intros ?; simplify_eq.
    + done.
  - destruct (py_eq_str type "pdf") eqn:Hpdf; simplify_eq.
    + destruct type as [|t| | |]; try done.
      apply String.eqb_eq in Hpdf as ->.
      split; [|split]; [|done|done].
      intros key v Hkv. destruct (decide (key = "note")) as [->|].
      * rewrite lookup_insert_eq in Hkv. simplify_eq. eauto.
      * by rewrite lookup_insert_ne, lookup_empty in Hkv.
    + split; [|split].
      * intros key v Hkv. by rewrite lookup_empty in Hkv.
      * split; [by intros [v Hv]; rewrite lookup_empty in Hv|].
        intros ?; by simplify_eq.
      * by intros [v Hv]; rewrite lookup_empty in Hv.
Qed.

(** X4.  When [parse_esg_data] returns and what it raises. *)
Theorem parse_esg_data_failures content w :
  (content !! "type" = None →
   ∃ w', parse_esg_data content w = (Raise (KeyError "type"), w'))
  ∧ (content !! "type" = Some (PStr "html") →
     content !! "content" = None →
     ∃ w', parse_esg_data content w = (Raise (KeyError "content"), w'))
  ∧ (∀ v, content !! "type" = Some (PStr "html") →
          content !! "content" = Some v → (∀ s, v ≠ PStr s) →
          ∃ w', parse_esg_data content w = (Raise TypeError, w'))
  ∧ (∀ type, content !! "type" = Some type →
             (type = PStr "html" →
              ∃ s, content !! "content" = Some (PStr s)) →
             ∃ w', parse_esg_data content w = (Ok (length (heap w)), w'))
  ∧ (∀ o w' r0 d0, parse_esg_data content w = (o, w') →
                   heap w !! r0 = Some d0 → heap w' !! r0 = Some d0).
Proof.
  rewrite parse_esg_data_spec. unfold parsed, getitem.
  split; [|split; [|split; [|split]]].
  - intros ->. eauto.
  - intros -> ->. simpl. eauto.
  - intros v -> -> Hv. simpl. destruct v; eauto. by destruct (Hv s).
  - intros type -> Hhtml.
    destruct (py_eq_str type "html") eqn:Heq.
    + destruct type as [|t| | |]; try done.
      apply String.eqb_eq in Heq as ->.
      destruct (Hhtml eq_refl) as [s ->]. simpl. eauto.
    + destruct (py_eq_str type "pdf"); eauto.
  - intros o w' r0 d0 Hrun Hr0.
    repeat case_match; simplify_eq; cbn [heap];
      by apply lookup_app_l_Some.
Qed.

(** X5.  A payload in which no character is a comma, a digit [0] to [9]
    or a decimal digit of another script yields no data. *)
Theorem parse_esg_data_no_figures content payload w :
  content !! "type" = Some (PStr "html") →
  content !! "content" = Some (PStr payload) →
  some_char (λ ch, figure_char ch || is_decimal ch) payload = false →
  ∃ w',
    parse_esg_data content w = (Ok (length (heap w)), w')
    ∧ heap w' !! length (heap w) = Some ∅.
Proof.
  intros Htype Hcontent Hnone.
  assert (Hcarbon : re_search carbon_pattern payload = None).
  { destruct (re_search carbon_pattern payload) as [m|] eqn:Hm; [|done].
    apply re_search_sound in Hm as (pre & s1 & suf & -> & Hl).
    apply lang_carbon in Hl
      as (kw & filler & figure & unit & -> & _ & _ & _ & Hne & Hfig & _).
    destruct figure as [|x figure]; [done|]. simpl in Hfig.
    apply andb_prop in Hfig as [Hx _].
    apply digit_or_comma_figure_char in Hx as [Hx Hfc].
    rewrite !append_assoc, !append_cons in Hnone.
    rewrite some_char_append_r in Hnone; [done|].
    do 2 apply some_char_append_r.
    eapply some_char_head; [by apply utf8_head_ascii|].
    by rewrite Hfc. }
  assert (Htarget : re_search net_zero_pattern payload = None).
  { destruct (re_search net_zero_pattern payload) as [m|] eqn:Hm; [|done].
    apply re_search_sound in Hm as (pre & s1 & suf & -> & Hl).
    apply lang_net_zero in Hl as (kw & year & -> & _ & _ & Hd).
    cbn [decimal_digits] in Hd.
    destruct (utf8_head year) as [[ch year']|] eqn:Hh; [|done].
    apply andb_prop in Hd as [Hch _].
    rewrite !append_assoc in Hnone.
    rewrite some_char_append_r in Hnone; [done|].
    apply some_char_append_r.
    eapply some_char_head; [by apply utf8_head_append|].
    by rewrite Hch, orb_true_r. }
  rewrite parse_esg_data_spec. unfold parsed, getitem.
  rewrite Htype, Hcontent. simpl. rewrite Hcarbon, Htarget. simpl.
  eexists. split; [done|]. apply lookup_last.
Qed.
End ParseFormat.

(** ** The matcher on well-formed statements *)

Lemma rmatch_lit {R} t :
  ∀ kw s caps (k : string → gmap nat string → option R),
    ci_match kw t = true → rmatch (lit t) (kw +:+ s) caps k = k s caps.
Proof.
  induction t as [|c t IH]; intros kw s caps k Hci.
  - by destruct kw.
  - cbn [ci_match] in Hci.
    destruct (utf8_head kw) as [[ch kw']|] eqn:Hh; [|done].
    apply andb_prop in Hci as [Hch Hci].
    cbn [lit rmatch]. rewrite (utf8_head_append _ _ _ s Hh), Hch.
    by apply IH.
Qed.

(** A greedy star takes a run that the next character ends, when the rest
    of the pattern matches from there. *)
Lemma star_match_run {R} p a s (k : string → option R) x :
  all_chars p a = true →
  (∀ c s', s = String c s' → p c = false) →
  k s = Some x →
  star_match p (a +:+ s) k = Some x.
Proof.
  intros Ha Hs Hk. induction a as [|c a IH].
  - change ("" +:+ s) with s. destruct s as [|c s']; simpl; [done|].
    by rewrite (Hs c s' eq_refl).
  - simpl in Ha. apply andb_prop in Ha as [Hc Ha].
    change (String c a +:+ s) with (String c (a +:+ s)).
    simpl. by rewrite Hc, (IH Ha).
Qed.

Lemma match_here_net_zero {U : Unicode} kw year suf :
  ci_match kw "net-zero by " = true →
  decimal_digits 4 year = true →
  match_here net_zero_pattern (kw +:+ year +:+ suf)
  = Some (<[1 := year]> ∅).
Proof.
  intros Hkw Hd. cbn [decimal_digits] in Hd.
  destruct (utf8_head year) as [[x1 y1]|] eqn:H1; [|done].
  apply andb_prop in Hd as [D1 Hd].
  destruct (utf8_head y1) as [[x2 y2]|] eqn:H2; [|done].
  apply andb_prop in Hd as [D2 Hd].
  destruct (utf8_head y2) as [[x3 y3]|] eqn:H3; [|done].
  apply andb_prop in Hd as [D3 Hd].
  destruct (utf8_head y3) as [[x4 y4]|] eqn:H4; [|done].
  apply andb_prop in Hd as [D4 Hd].
  destruct y4; [|done].
  unfold match_here, net_zero_pattern. cbn [rmatch].
  rewrite rmatch_lit by done.
  rewrite (utf8_head_append _ _ _ suf H1), D1.
  rewrite (utf8_head_append _ _ _ suf H2), D2.
  rewrite (utf8_head_append _ _ _ suf H3), D3.
  rewrite (utf8_head_append _ _ _ suf H4), D4.
  change ("" +:+ suf) with suf. by rewrite consumed_append.
Qed.

(** Apart from [i], [s] and [k], a letter of a pattern matches its two
    cases only. *)
Lemma matches_literal_plain c ch :
  ascii_lower (N_of_ascii c) ≠ 105%N →
  ascii_lower (N_of_ascii c) ≠ 115%N →
  ascii_lower (N_of_ascii c) ≠ 107%N →
  matches_literal c ch
  = (ch <? 128)%N && (ascii_lower ch =? ascii_lower (N_of_ascii c))%N.
Proof.
  intros Hi Hs Hk. unfold matches_literal. cbv zeta.
  apply N.eqb_neq in Hi, Hs, Hk. rewrite Hi, Hs, Hk. simpl.
  by rewrite !orb_false_r.
Qed.

Lemma matches_literal_other c1 c2 ch :
  ascii_lower (N_of_ascii c1) ≠ 105%N →
  ascii_lower (N_of_ascii c1) ≠ 115%N →
  ascii_lower (N_of_ascii c1) ≠ 107%N →
  ascii_lower (N_of_ascii c2) ≠ 105%N →
  ascii_lower (N_of_ascii c2) ≠ 115%N →
  ascii_lower (N_of_ascii c2) ≠ 107%N →
  ascii_lower (N_of_ascii c1) ≠ ascii_lower (N_of_ascii c2) →
  matches_literal c1 ch = true → matches_literal c2 ch = false.
Proof.
  intros Hi1 Hs1 Hk1 Hi2 Hs2 Hk2 Hne.
  rewrite !matches_literal_plain by done.
  intros [-> Heq]%andb_prop. apply N.eqb_eq in Heq. rewrite Heq. simpl.
  by apply N.eqb_neq.
Qed.

Lemma not_metric_tons_MT {R} unit suf caps
    (k : string → gmap nat string → option R) :
  ci_match unit "MT" = true →
  rmatch (lit "metric tons") (unit +:+ suf) caps k = None.
Proof.
  cbn [ci_match].
  destruct (utf8_head unit) as [[x u1]|] eqn:H1; [|done].
  intros [Hx Hu]%andb_prop.
  destruct (utf8_head u1) as [[y u2]|] eqn:H2; [|done].
  apply andb_prop in Hu as [Hy _].
  cbn [lit rmatch].
  rewrite (utf8_head_append _ _ _ suf H1).
  change (matches_literal "m" x) with (matches_literal "M" x). rewrite Hx.
  rewrite (utf8_head_append _ _ _ suf H2).
  by rewrite (matches_literal_other "T" "e" y).
Qed.

Lemma not_metric_tons_tCO2e {R} unit suf caps
    (k : string → gmap nat string → option R) :
  ci_match unit "tCO2e" = true →
  rmatch (lit "metric tons") (unit +:+ suf) caps k = None
  ∧ rmatch (lit "MT") (unit +:+ suf) caps k = None.
Proof.
  cbn [ci_match].
  destruct (utf8_head unit) as [[x u1]|] eqn:H1; [|done].
  intros [Hx _]%andb_prop.
  cbn [lit rmatch].
  rewrite (utf8_head_append _ _ _ suf H1).
  change (matches_literal "M" x) with (matches_literal "m" x).
  by rewrite (matches_literal_other "t" "m" x).
Qed.

Lemma match_here_carbon kw filler d figure unit suf :
  ci_match kw "carbon emissions" = true →
  all_chars (λ c, negb (is_digit c)) filler = true →
  is_digit d = true → all_chars digit_or_comma figure = true →
  (ci_match unit "metric tons" = true ∨ ci_match unit "MT" = true
   ∨ ci_match unit "tCO2e" = true) →
  match_here carbon_pattern
    (kw +:+ filler +:+ String d figure +:+ " " +:+ unit +:+ suf)
  = Some (<[2 := unit]> (<[1 := String d figure]> ∅)).
Proof.
  intros Hkw Hfill Hd Hfig Hunit.
  unfold match_here, carbon_pattern. cbn [rmatch].
  rewrite rmatch_lit by done.
  apply star_match_run; [done| |].
  { intros c s' [= <- _]. by rewrite Hd. }
  change (String d figure +:+ " " +:+ unit +:+ suf)
    with (String d (figure +:+ " " +:+ unit +:+ suf)).
  unfold digit_or_comma at 1. rewrite Hd. cbn [orb].
  apply star_match_run; [done| |].
  { by intros c s' [= <- _]. }
  change (String d (figure +:+ " " +:+ unit +:+ suf))
    with (String d figure +:+ (" " +:+ unit +:+ suf)).
  rewrite consumed_append.
  rewrite (rmatch_lit " " " ") by done.
  destruct Hunit as [Hu|[Hu|Hu]].
  - rewrite rmatch_lit by done. by rewrite consumed_append.
  - rewrite not_metric_tons_MT by done.
    rewrite rmatch_lit by done. by rewrite consumed_append.
  - destruct (not_metric_tons_tCO2e (R:=gmap nat string) unit suf
                (<[1:=String d figure]> ∅)
                (λ s' caps', Some (<[2:=consumed (unit +:+ suf) s']> caps'))
                Hu) as [-> ->].
    rewrite rmatch_lit by done. by rewrite consumed_append.
Qed.

Section ParseExtraction.
Context {E : Type} {U : Unicode}.
Implicit Types (w : world E) (content : dict).

(** X6.  Any four decimal digits after the keyword are extracted, when no
    match starts before the keyword: the keyword in the characters
    [re.IGNORECASE] accepts, the digits in any script. *)
Theorem parse_esg_data_extracts_target content pre kw year suf w :
  content !! "type" = Some (PStr "html") →
  content !! "content" = Some (PStr (pre +:+ kw +:+ year +:+ suf)) →
  ci_match kw "net-zero by " = true →
  decimal_digits 4 year = true →
  no_match_before net_zero_pattern pre (kw +:+ year +:+ suf) = true →
  ∃ w' d,
    parse_esg_data content w = (Ok (length (heap w)), w')
    ∧ heap w' !! length (heap w) = Some d
    ∧ d !! "net_zero_target" = Some (PStr year).
Proof.
  intros Htype Hcontent Hkw Hd Hpre.
  pose proof (re_search_leftmost _ _ _ _ Hpre
                (match_here_net_zero kw year suf Hkw Hd)) as Hsearch.
  rewrite parse_esg_data_spec. unfold parsed, getitem.
  rewrite Htype, Hcontent. cbn [py_eq_str String.eqb Ascii.eqb Bool.eqb].
  cbn [py_re_search]. rewrite Hsearch.
  eexists _, _. split; [done|]. cbn [heap]. split; [apply lookup_last|].
  unfold with_target, group. by rewrite !lookup_insert_eq.
Qed.

(** X7.  Any figure that starts with a digit, followed by a space and a
    unit, is extracted as written, when no match starts before the
    keyword: the keyword and the unit in the characters [re.IGNORECASE]
    accepts. *)
Theorem parse_esg_data_extracts_carbon
    content pre kw filler d figure unit suf w :
  content !! "type" = Some (PStr "html") →
  content !! "content"
  = Some (PStr (pre +:+ kw +:+ filler +:+ String d figure +:+ " " +:+ unit
                    +:+ suf)) →
  ci_match kw "carbon emissions" = true →
  all_chars (λ c, negb (is_digit c)) filler = true →
  is_digit d = true → all_chars digit_or_comma figure = true →
  (ci_match unit "metric tons" = true ∨ ci_match unit "MT" = true
   ∨ ci_match unit "tCO2e" = true) →
  no_match_before carbon_pattern pre
    (kw +:+ filler +:+ String d figure +:+ " " +:+ unit +:+ suf) = true →
  ∃ w' rec,
    parse_esg_data content w = (Ok (length (heap w)), w')
    ∧ heap w' !! length (heap w) = Some rec
    ∧ rec !! "carbon_emissions"
      = Some (PStr (String d figure +:+ " " +:+ unit)).
Proof.
  intros Htype Hcontent Hkw Hfill Hd Hfig Hunit Hpre.
  pose proof (re_search_leftmost _ _ _ _ Hpre
                (match_here_carbon kw filler d figure unit suf
                   Hkw Hfill Hd Hfig Hunit)) as Hsearch.
  rewrite parse_esg_data_spec. unfold parsed, getitem.
  rewrite Htype, Hcontent. cbn [py_eq_str String.eqb Ascii.eqb Bool.eqb].
  cbn [py_re_search]. rewrite Hsearch.
  eexists _, _. split; [done|]. cbn [heap]. split; [apply lookup_last|].
  unfold with_target, with_carbon, group.
  rewrite lookup_insert_eq, lookup_insert_ne, lookup_insert_eq by done.
  simpl. destruct (re_search net_zero_pattern _);
    by rewrite ?lookup_insert_ne, lookup_insert_eq by done.
Qed.
End ParseExtraction.

Section ValidateExtras.
Context {E : Type}.
Implicit Types (w : world E) (r : nat) (d : dict).

(** X8.  A record with both fields is left as it is. *)
Theorem validate_data_complete_record w r d :
  heap w !! r = Some d →
  is_Some (d !! "carbon_emissions") →
  is_Some (d !! "net_zero_target") →
  validate_data r w = (Ok r, w).
Proof.
  intros Hr Hc Hn. rewrite (validate_data_spec w r d Hr).
  unfold validated, missing_messages.
  rewrite !bool_decide_eq_true_2 by done. simpl.
  destruct w as [h o e]; simpl in *. by rewrite list_insert_id.
Qed.

(** X9.  One missing field adds the message of that field only. *)
Theorem validate_data_one_missing w r d l0 :
  heap w !! r = Some d →
  error_list d = PList l0 →
  (is_Some (d !! "carbon_emissions") → d !! "net_zero_target" = None →
   ∃ w', validate_data r w = (Ok r, w')
         ∧ heap w' !! r
           = Some (<["error" := PList (l0 ++ [PStr "Missing net-zero target"])]>
                     d))
  ∧ (d !! "carbon_emissions" = None → is_Some (d !! "net_zero_target") →
     ∃ w', validate_data r w = (Ok r, w')
           ∧ heap w' !! r
             = Some (<["error" :=
                         PList (l0 ++ [PStr "Missing carbon emissions data"])]>
                       d)).
Proof.
  intros Hr He.
  assert (Hlt : r < length (heap w)) by by eapply lookup_lt_Some.
  rewrite (validate_data_spec w r d Hr).
  unfold validated, missing_messages. rewrite He.
  split.
  - intros Hc Hn. rewrite bool_decide_eq_true_2 by done.
    rewrite Hn, bool_decide_eq_false_2 by by intros [? ?].
    simpl. eexists. split; [done|]. by apply list_lookup_insert_eq.
  - intros Hc Hn. rewrite Hc, bool_decide_eq_false_2 by by intros [? ?].
    rewrite (bool_decide_eq_true_2 _ Hn).
    simpl. eexists. split; [done|]. by apply list_lookup_insert_eq.
Qed.

(** X10.  An [error] entry that is not a list makes validation fail, and
    the record is left as it was. *)
Theorem validate_data_type_error w r d v :
  heap w !! r = Some d →
  d !! "error" = Some v → (∀ l, v ≠ PList l) →
  d !! "carbon_emissions" = None ∨ d !! "net_zero_target" = None →
  validate_data r w = (Raise TypeError, w).
Proof.
  intros Hr He Hv Hmiss. rewrite (validate_data_spec w r d Hr).
  unfold validated, error_list. rewrite He. simpl.
  assert (Hne : missing_messages d ≠ []).
  { unfold missing_messages. destruct Hmiss as [H|H]; rewrite H; simpl.
    - done.
    - by destruct (bool_decide _). }
  destruct (missing_messages d); [done|].
  destruct v; try done. by destruct (Hv l0).
Qed.
End ValidateExtras.

(** ** File names and the PDF test *)

Lemma append_nil_r (a : string) : a +:+ "" = a.
Proof.
  induction a as [|x a IH]; [done|].
  change (String x a +:+ "") with (String x (a +:+ "")). by rewrite IH.
Qed.

Lemma last_segment_from_spec sep s :
  ∀ cur,
    all_chars (λ c, negb (Ascii.eqb c sep)) cur = true →
    ∃ pre,
      cur +:+ s = pre +:+ last_segment_from sep s cur
      ∧ all_chars (λ c, negb (Ascii.eqb c sep)) (last_segment_from sep s cur)
        = true
      ∧ (pre = "" ∨ ∃ p, pre = p +:+ String sep "").
Proof.
  induction s as [|c s IH]; intros cur Hcur; simpl.
  - exists "". rewrite append_nil_r. by repeat split; [|left].
  - destruct (Ascii.eqb c sep) eqn:Hc.
    + apply Ascii.eqb_eq in Hc as ->.
      destruct (IH "" eq_refl) as (pre & Hs & Hall & Hpre).
      change ("" +:+ s) with s in Hs.
      exists (cur +:+ String sep "" +:+ pre). split; [|split; [done|right]].
      * rewrite Hs at 1. rewrite !append_assoc. done.
      * destruct Hpre as [->|[p ->]].
        -- exists cur. by rewrite append_nil_r.
        -- exists (cur +:+ String sep "" +:+ p). by rewrite !append_assoc.
    + destruct (IH (cur +:+ String c "")) as (pre & Hs & Hall & Hpre).
      { rewrite all_chars_append, Hcur. simpl. by rewrite Hc. }
      exists pre. split; [|done].
      rewrite <- Hs, append_assoc. reflexivity.
Qed.

Lemma prefix_spec a b :
  String.prefix a b = true ↔ ∃ suf, b = a +:+ suf.
Proof.
  revert b. induction a as [|x a IH]; intros [|y b]; simpl.
  - split; [by exists ""|done].
  - split; [by exists (String y b)|done].
  - split; [done|]. by intros [suf ?].
  - destruct (Ascii.ascii_dec x y) as [->|Hne].
    + rewrite IH. split; intros [suf H]; exists suf.
      * by rewrite H.
      * by injection H.
    + split; [done|]. intros [suf H]. by injection H.
Qed.

(** [needle in hay] holds exactly when [needle] occurs in [hay]. *)
Lemma str_in_spec needle hay :
  str_in needle hay = true ↔ ∃ pre suf, hay = pre +:+ needle +:+ suf.
Proof.
  induction hay as [|c hay IH]; cbn [str_in].
  - rewrite orb_false_r, prefix_spec. split.
    + intros [suf ->]. by exists "", suf.
    + intros (pre & suf & H). destruct pre; [by exists suf|done].
  - rewrite orb_true_iff, prefix_spec, IH. split.
    + intros [[suf H]|(pre & suf & H)].
      * by exists "", suf.
      * exists (String c pre), suf. by rewrite H.
    + intros (pre & suf & H). destruct pre as [|x pre].
      * left. by exists suf.
      * right. exists pre, suf. by injection H.
Qed.

Section FetchExtras.
Context {E : Type} `{!Runtime E}.
Implicit Types (w : world E) (url : pyval) (c : dict).

(** X11.  A content is returned without a line printed, after the calls of
    its branch and no others: for a page the request alone, for a PDF the
    request, the directory and the file holding the response body. *)
Theorem fetch_content_effects url w c w' :
  fetch_content url w = (Ok (Some c), w') →
  heap w' = heap w ∧ stdout w' = stdout w
  ∧ ∃ resp e1,
      requests_get url (ext w) = (Ok resp, e1)
      ∧ ((c !! "type" = Some (PStr "html") ∧ ext w' = e1)
         ∨ (c !! "type" = Some (PStr "pdf")
            ∧ ∃ path e2,
                c !! "content" = Some (PStr path)
                ∧ os_makedirs "downloads" e1 = (Ok tt, e2)
                ∧ write_binary path (body resp) e2 = (Ok tt, ext w'))).
Proof.
  unfold fetch_content, try_except, bind, call, lift, print, ret,
    url_last_segment.
  destruct w as [h o e]. cbn [heap stdout ext].
  destruct (requests_get url e) as [[resp|?] e1] eqn:Hget;
    simpl; [|by intros ?; simplify_eq].
  destruct (raise_for_status resp) as [[]|?];
    simpl; [|by intros ?; simplify_eq].
  destruct (str_in "application/pdf" (default "" (content_type resp)));
    simpl.
  - destruct (os_makedirs "downloads" e1) as [[[]|?] e2] eqn:Hmk;
      simpl; [|by intros ?; simplify_eq].
    destruct url as [|s| | |]; simpl; try by intros ?; simplify_eq.
    destruct (write_binary _ _ e2) as [[[]|?] e3] eqn:Hwr;
      simpl; [|by intros ?; simplify_eq].
    intros ?; simplify_eq. repeat split. exists resp, e1. split; [done|].
    right. split; [done|]. eexists _, e2. by repeat split.
  - destruct (find_all_p_text (text resp)) as [ps|?];
      simpl; [|by intros ?; simplify_eq].
    intros ?; simplify_eq. repeat split. exists resp, e1. split; [done|].
    by left.
Qed.

(** X22.  [None] is returned with exactly one line printed, the warning. *)
Theorem fetch_content_absent_warns url w w' :
  fetch_content url w = (Ok None, w') →
  heap w' = heap w
  ∧ ∃ e, stdout w'
         = stdout w ++ ["Error fetching content from " +:+ py_str url
                        +:+ ": " +:+ exn_str e].
Proof.
  unfold fetch_content, try_except, bind, call, lift, print, ret.
  destruct w as [h o e]. cbn [heap stdout ext].
  destruct (requests_get url e) as [[resp|?] e1];
    simpl; [|intros ?; simplify_eq; eauto].
  destruct (raise_for_status resp) as [[]|?];
    simpl; [|intros ?; simplify_eq; eauto].
  destruct (str_in "application/pdf" (default "" (content_type resp)));
    simpl.
  - destruct (os_makedirs "downloads" e1) as [[[]|?] e2];
      simpl; [|intros ?; simplify_eq; eauto].
    destruct (url_last_segment url) as [seg|?];
      simpl; [|intros ?; simplify_eq; eauto].
    destruct (write_binary _ _ e2) as [[[]|?] e3];
      simpl; intros ?; simplify_eq; eauto.
  - destruct (find_all_p_text (text resp)) as [ps|?];
      simpl; intros ?; simplify_eq; eauto.
Qed.

(** X12.  The file of a PDF lies in [downloads], under the text of the URL
    after its last slash. *)
Theorem fetch_content_pdf_path url w c w' :
  fetch_content url w = (Ok (Some c), w') →
  c !! "type" = Some (PStr "pdf") →
  ∃ s pre name,
    url = PStr s ∧ s = pre +:+ name
    ∧ (pre = "" ∨ ∃ p, pre = p +:+ "/")
    ∧ all_chars (λ x, negb (Ascii.eqb x "/")) name = true
    ∧ c !! "content" = Some (PStr ("downloads/" +:+ name)).
Proof.
  intros Hf Htype.
  apply fetch_content_some in Hf as (resp & e1 & _ & _ & Hc).
  destruct Hc as [(_ & s & -> & ->)|(_ & ps & _ & ->)];
    [|by rewrite lookup_insert_eq in Htype].
  destruct (last_segment_from_spec "/" s "" eq_refl)
    as (pre & Hs & Hall & Hpre).
  exists s, pre, (last_segment "/" s). split; [done|].
  split; [exact Hs|]. split; [done|]. split; [done|].
  by rewrite lookup_insert_ne, lookup_insert_eq.
Qed.

(** X13.  When the request and the status check go through, a
    [Content-Type] that contains [application/pdf] anywhere makes a PDF
    content once the directory and the file are written, and any other
    header, or none, makes an html content of the paragraphs joined by
    spaces. *)
Theorem fetch_content_succeeds url w resp e1 :
  requests_get url (ext w) = (Ok resp, e1) →
  raise_for_status resp = Ok tt →
  (∀ pre suf s e2 e3,
     content_type resp = Some (pre +:+ "application/pdf" +:+ suf) →
     url = PStr s →
     os_makedirs "downloads" e1 = (Ok tt, e2) →
     write_binary ("downloads/" +:+ last_segment "/" s) (body resp) e2
     = (Ok tt, e3) →
     fetch_content url w
     = (Ok (Some (<["type" := PStr "pdf"]>
                    (<["content" :=
                         PStr ("downloads/" +:+ last_segment "/" s)]> ∅))),
        World (heap w) (stdout w) e3))
  ∧ (∀ paragraphs,
       str_in "application/pdf" (default "" (content_type resp)) = false →
       find_all_p_text (text resp) = Ok paragraphs →
       fetch_content url w
       = (Ok (Some (<["type" := PStr "html"]>
                      (<["content" := PStr (str_join " " paragraphs)]> ∅))),
          World (heap w) (stdout w) e1)).
Proof.
  intros Hget Hst.
  unfold fetch_content, try_except, bind, call, lift, print, ret,
    url_last_segment.
  rewrite Hget. simpl. rewrite Hst. simpl. split.
  - intros pre suf s e2 e3 Hct -> Hmk Hwr.
    assert (Hpdf : str_in "application/pdf" (default "" (content_type resp))
                   = true).
    { rewrite Hct. simpl. apply str_in_spec. eauto. }
    rewrite Hpdf. simpl. rewrite Hmk. simpl. by rewrite Hwr.
  - intros paragraphs -> ->. done.
Qed.

End FetchExtras.

Section SearchExtras.
Context {E : Type} `{!Runtime E} {U : Unicode}.
Implicit Types (w : world E) (self : ESGSearcher).

Lemma hit_of_item_keys item hit :
  hit_of_item item = Ok hit →
  dom hit = ({["title"; "link"; "snippet"]} : gset string).
Proof.
  destruct item; try done. simpl. intros [= <-].
  rewrite !dom_insert_L, dom_empty_L. set_solver.
Qed.

Lemma append_hits_keys items :
  ∀ acc,
    Forall (λ hit : dict, dom hit = ({["title"; "link"; "snippet"]} : gset string))
      acc →
    Forall (λ hit : dict, dom hit = ({["title"; "link"; "snippet"]} : gset string))
      (append_hits items acc).1.
Proof.
  induction items as [|item items IH]; intros acc Hacc; simpl; [done|].
  destruct (hit_of_item item) as [hit|] eqn:Hhit; [|done].
  apply IH, Forall_app. split; [done|].
  constructor; [|done]. by eapply hit_of_item_keys.
Qed.


(** What [search_reports] returns is what the loop appended to the empty
    list, and the store is as before. *)
Lemma search_reports_results self query num_results w hits w' :
  search_reports self query num_results w = (Ok hits, w') →
  heap w' = heap w ∧ ∃ items, hits = (append_hits items []).1.
Proof.
  rewrite search_reports_spec.
  destruct (cse_list_execute _ _ _ _ _) as [[answer|?] e1];
    [|intros ?; simplify_eq; split; [done|by exists []]].
  destruct (py_get answer "items" (PList [])) as [got|?];
    [|intros ?; simplify_eq; split; [done|by exists []]].
  destruct (py_iter got) as [items|?];
    [|intros ?; simplify_eq; split; [done|by exists []]].
  destruct (append_hits items []) as [results [?|]] eqn:Happ;
    intros ?; simplify_eq; (split; [done|]); exists items; by rewrite Happ.
Qed.

(** X15.  Every hit has exactly the keys [title], [link] and [snippet], and
    the search changes no object. *)
Theorem search_reports_hit_keys self query num_results w hits w' :
  search_reports self query num_results w = (Ok hits, w') →
  heap w' = heap w
  ∧ Forall (λ hit : dict,
              dom hit = ({["title"; "link"; "snippet"]} : gset string)) hits.
Proof.
  intros Hrun.
  apply search_reports_results in Hrun as [Hheap [items ->]].
  split; [exact Hheap|].
  apply append_hits_keys. constructor.
Qed.

(** X16.  An answer without items gives no hit and no warning; a null under
    [items] gives no hit and a warning. *)
Theorem search_reports_no_items self query num_results w answer e1 :
  cse_list_execute (api_key self) query (cse_id self) num_results (ext w)
  = (Ok (PDict answer), e1) →
  (answer !! "items" = None →
   search_reports self query num_results w
   = (Ok [], World (heap w) (stdout w) e1))
  ∧ (answer !! "items" = Some (PList []) →
     search_reports self query num_results w
     = (Ok [], World (heap w) (stdout w) e1))
  ∧ (answer !! "items" = Some PNone →
     search_reports self query num_results w
     = (Ok [], World (heap w) (stdout w ++ [search_warning TypeError]) e1)).
Proof.
  intros Hreq. rewrite search_reports_spec, Hreq. simpl.
  by repeat split; intros ->.
Qed.

End SearchExtras.

Section ProcessExtras.
Context {E : Type} `{!Runtime E} {U : Unicode}.
Implicit Types (w : world E) (hit : dict).

Lemma validated_parsed (d0 d1 : dict) :
  d0 !! "error" = None → validated d0 = Ok d1 →
  missing_messages d1 = missing_messages d0
  ∧ consistent_record d1
  ∧ (∀ key, key ≠ "error" → d1 !! key = d0 !! key).
Proof.
  unfold validated, error_list, consistent_record. intros He Hv.
  rewrite He in Hv. simpl in Hv.
  destruct (missing_messages d0) as [|msg msgs] eqn:Hm; simplify_eq.
  - rewrite Hm. by repeat split.
  - assert (Hm1 : missing_messages
                    (<["error" := PList (msg :: msgs)]> d0) = msg :: msgs).
    { rewrite <- Hm. unfold missing_messages.
      by rewrite !lookup_insert_ne. }
    rewrite Hm1, lookup_insert_eq. repeat split.
    intros key Hkey. by rewrite lookup_insert_ne.
Qed.

Lemma metadata_union hit (d1 : dict) :
  consistent_record d1 → consistent_record (metadata hit ∪ d1).
Proof.
  unfold consistent_record, missing_messages, metadata.
  intros Hc.
  rewrite !lookup_union_r by by simplify_map_eq. done.
Qed.

(** One turn of the loop on a hit with its three keys. *)
Lemma process_loop_step hit rest acc w :
  is_hit hit →
  ∃ c out e',
    fetch_content (default PNone (hit !! "link")) (World [] [] (ext w))
    = (Ok c, World [] out e')
    ∧ match c with
      | None =>
          process_loop (hit :: rest) acc w
          = process_loop rest acc
              (World (heap w) ((stdout w ++ [processing_line hit]) ++ out) e')
      | Some content =>
          ∃ d0 d1,
            parsed content = Ok d0 ∧ validated d0 = Ok d1
            ∧ process_loop (hit :: rest) acc w
              = process_loop rest (acc ++ [length (heap w)])
                  (World (heap w ++ [metadata hit ∪ d1])
                     ((stdout w ++ [processing_line hit]) ++ out) e')
      end.
Proof.
  intros (Ht & Hl & Hs).
  destruct Ht as [title Ht], Hl as [link Hl], Hs as [snippet Hs].
  unfold processing_line, metadata. rewrite Ht, Hl, Hs. simpl default.
  cbn [process_loop]. unfold getitem. rewrite Ht, Hl, Hs.
  rewrite !bind_lift, bind_print, bind_lift.
  destruct w as [h o e]. cbn [heap stdout ext].
  set (o1 := o ++ _).
  pose proof (fetch_content_local link h o1 e) as Hloc.
  destruct (fetch_content_returns link (World [] [] e))
    as (c & w0 & H0 & Hh0).
  destruct w0 as [h0 out e']. cbn [heap] in Hh0. subst h0.
  rewrite H0 in Hloc. cbn beta iota zeta in Hloc. cbn [stdout ext] in Hloc.
  exists c, out, e'. split; [done|].
  erewrite bind_ok by exact Hloc.
  destruct c as [content|]; [|done].
  destruct (parsed_fetched _ _ _ _ H0) as (Hne & d0 & Hp).
  destruct (validated_no_error d0 (parsed_no_error _ _ Hp)) as (d1 & Hv).
  exists d0, d1. split; [done|]. split; [done|].
  unfold truthy. rewrite bool_decide_eq_false_2 by done. cbn [negb].
  erewrite parse_validate by done. cbn [heap stdout ext].
  rewrite !bind_lift.
  erewrite bind_ok; [|by erewrite update_ok by apply lookup_last].
  cbn [heap stdout ext]. by rewrite insert_last.
Qed.

(** The loop on hits with their three keys: the new objects are the
    records, in order, and each is consistent. *)
Lemma process_loop_records hits :
  ∀ acc w,
    Forall is_hit hits →
    ∃ ds w',
      process_loop hits acc w
      = (Ok (acc ++ seq (length (heap w)) (length ds)), w')
      ∧ heap w' = heap w ++ ds
      ∧ Forall consistent_record ds
      ∧ length ds ≤ length hits.
Proof.
  induction hits as [|hit rest IH]; intros acc w Hhits.
  - exists [], w. simpl. rewrite !app_nil_r. by repeat split.
  - apply Forall_cons in Hhits as [Hhit Hrest].
    destruct (process_loop_step hit rest acc w Hhit)
      as (c & out & e' & _ & Hstep).
    destruct c as [content|].
    + destruct Hstep as (d0 & d1 & Hp & Hv & ->).
      destruct (IH (acc ++ [length (heap w)])
                  (World (heap w ++ [metadata hit ∪ d1])
                     ((stdout w ++ [processing_line hit]) ++ out) e')
                  Hrest)
        as (ds & w' & -> & Hheap & Hds & Hlen).
      cbn [heap] in Hheap |- *.
      exists ((metadata hit ∪ d1) :: ds), w'. split; [|split; [|split]].
      * rewrite length_app, <- app_assoc. simpl.
        by replace (length (heap w) + 1) with (S (length (heap w))) by lia.
      * by rewrite Hheap, <- app_assoc.
      * constructor; [|done]. apply metadata_union.
        by apply (validated_parsed d0 d1 (parsed_no_error _ _ Hp) Hv).
      * simpl. lia.
    + rewrite Hstep.
      destruct (IH acc (World (heap w)
                          ((stdout w ++ [processing_line hit]) ++ out) e')
                  Hrest)
        as (ds & w' & -> & Hheap & Hds & Hlen).
      exists ds, w'. repeat split; try done. simpl. lia.
Qed.

(** X18.  Processing adds the records to the store and nothing else: the
    objects that were there are unchanged, the new ones are the records,
    in the order returned. *)
Theorem process_search_results_store (hits : list dict) w :
  Forall is_hit hits →
  ∃ ds w',
    process_search_results hits w
    = (Ok (seq (length (heap w)) (length ds)), w')
    ∧ heap w' = heap w ++ ds
    ∧ length ds ≤ length hits.
Proof.
  intros Hhits.
  destruct (process_loop_records hits [] w Hhits)
    as (ds & w' & Hrun & Hheap & _ & Hlen).
  by exists ds, w'.
Qed.

(** X19.  In every record, the [error] entry lists exactly the messages of
    the fields the record lacks, and is absent when it lacks none. *)
Theorem process_search_results_consistent (hits : list dict) w :
  Forall is_hit hits →
  ∃ records w',
    process_search_results hits w = (Ok records, w')
    ∧ Forall (λ r, ∃ d, heap w' !! r = Some d ∧ consistent_record d)
        records.
Proof.
  intros Hhits.
  destruct (process_loop_records hits [] w Hhits)
    as (ds & w' & Hrun & Hheap & Hds & _).
  eexists _, w'. split; [exact Hrun|]. simpl.
  apply Forall_forall. intros r Hr%elem_of_seq.
  destruct (lookup_lt_is_Some_2 ds (r - length (heap w))) as [d Hd];
    [lia|].
  exists d. split.
  - rewrite Hheap, lookup_app_r by lia. done.
  - eapply Forall_forall; [exact Hds|]. by eapply list_elem_of_lookup_2.
Qed.

(** The loop runs through hits with their three keys and goes on with the
    hits after them. *)
Lemma process_loop_prefix good :
  ∀ later acc w,
    Forall is_hit good →
    ∃ acc' w', process_loop (good ++ later) acc w
               = process_loop later acc' w'.
Proof.
  induction good as [|hit good IH]; intros later acc w Hgood.
  - by exists acc, w.
  - apply Forall_cons in Hgood as [Hhit Hgood].
    destruct (process_loop_step hit (good ++ later) acc w Hhit)
      as (c & out & e' & _ & Hstep).
    change ((hit :: good) ++ later) with (hit :: good ++ later).
    destruct c as [content|].
    + destruct Hstep as (d0 & d1 & _ & _ & ->). by apply IH.
    + rewrite Hstep. by apply IH.
Qed.

(** X20.  A hit without [title] (or, with a title, without [link]) stops the
    run with a [KeyError], whatever was processed before it. *)
Theorem process_search_results_malformed good bad rest w :
  Forall is_hit good →
  (bad !! "title" = None →
   ∃ w', process_search_results (good ++ bad :: rest) w
         = (Raise (KeyError "title"), w'))
  ∧ (is_Some (bad !! "title") → bad !! "link" = None →
     ∃ w', process_search_results (good ++ bad :: rest) w
           = (Raise (KeyError "link"), w')).
Proof.
  intros Hgood. unfold process_search_results.
  destruct (process_loop_prefix good (bad :: rest) [] w Hgood)
    as (acc' & w' & ->).
  cbn [process_loop]. unfold getitem, lift, bind. split.
  - intros ->. eauto.
  - intros [title ->] ->. eauto.
Qed.

(** X21.  A hit without [snippet] is passed over when its fetch returns
    nothing, and stops the run with a [KeyError] when it returns a
    content. *)
Theorem process_search_results_no_snippet hit rest w :
  is_Some (hit !! "title") → is_Some (hit !! "link") →
  hit !! "snippet" = None →
  ∀ c w1,
    fetch_content (default PNone (hit !! "link"))
      (World (heap w) (stdout w ++ [processing_line hit]) (ext w))
    = (Ok c, w1) →
    match c with
    | None =>
        process_search_results (hit :: rest) w
        = process_search_results rest w1
    | Some _ =>
        ∃ w2, process_search_results (hit :: rest) w
              = (Raise (KeyError "snippet"), w2)
    end.
Proof.
  intros [title Ht] [link Hl] Hs c w1 Hf.
  unfold process_search_results, processing_line in *.
  rewrite Ht, Hl in Hf. simpl default in Hf.
  cbn [process_loop]. unfold getitem. rewrite Ht, Hl, Hs.
  rewrite !bind_lift, bind_print, bind_lift.
  erewrite bind_ok by exact Hf.
  destruct c as [content|]; [|done].
  destruct (fetch_content_returns link
              (World (heap w)
                 (stdout w ++ ["Processing: " +:+ py_str title +:+ " - "
                               +:+ py_str link]) (ext w)))
    as (c' & w1' & Hf' & _).
  rewrite Hf in Hf'. simplify_eq.
  destruct (parsed_fetched _ _ _ _ Hf) as (Hne & d0 & Hp).
  destruct (validated_no_error d0 (parsed_no_error _ _ Hp)) as (d1 & Hv).
  unfold truthy. rewrite bool_decide_eq_false_2 by done. cbn [negb].
  erewrite parse_validate by done.
  rewrite !bind_lift. unfold lift, bind. eauto.
Qed.
End ProcessExtras.

(** * The further properties on concrete inputs *)

(** [net_zero_target_is_four_digits] on a concrete input: a year in
    Arabic-Indic digits. *)
Lemma net_zero_target_is_four_digits_witness :
  let content : dict :=
    <["type" := PStr "html"]>
      (<["content" := PStr "We aim to be net-zero by ٢٠٤٥."]> ∅) in
  let d : dict := <["net_zero_target" := PStr "٢٠٤٥"]> ∅ in
  parse_esg_data content (World [] [] tt) = (Ok 0, World [d] [] tt)
  ∧ heap (World [d] [] tt) !! 0 = Some d
  ∧ d !! "net_zero_target" = Some (PStr "٢٠٤٥")
  ∧ ∃ pre keyword year suf,
      PStr "٢٠٤٥" = PStr year
      ∧ decimal_digits 4 year = true
      ∧ ci_match keyword "net-zero by " = true
      ∧ content !! "content" = Some (PStr (pre +:+ keyword +:+ year +:+ suf)).
Proof.
  intros content d.
  assert (Hrun : parse_esg_data content (World [] [] tt)
                 = (Ok 0, World [d] [] tt)) by (vm_compute; reflexivity).
  split; [exact Hrun|]. split; [reflexivity|]. split; [reflexivity|].
  exact (net_zero_target_is_four_digits content (World [] [] tt) 0
           (World [d] [] tt) d (PStr "٢٠٤٥") Hrun eq_refl eq_refl).
Defined.

(** [carbon_emissions_is_figure_and_unit] on a concrete input: a keyword
    with long s and a unit with dotless i. *)
Lemma carbon_emissions_is_figure_and_unit_witness :
  let content : dict :=
    <["type" := PStr "html"]>
      (<["content" := PStr "Carbon emiſſions: 12,500 metrıc tons."]> ∅) in
  let d : dict := <["carbon_emissions" := PStr "12,500 metrıc tons"]> ∅ in
  parse_esg_data content (World [] [] tt) = (Ok 0, World [d] [] tt)
  ∧ heap (World [d] [] tt) !! 0 = Some d
  ∧ d !! "carbon_emissions" = Some (PStr "12,500 metrıc tons")
  ∧ ∃ pre keyword filler figure unit suf,
      PStr "12,500 metrıc tons" = PStr (figure +:+ " " +:+ unit)
      ∧ figure ≠ "" ∧ all_chars digit_or_comma figure = true
      ∧ (ci_match unit "metric tons" = true ∨ ci_match unit "MT" = true
         ∨ ci_match unit "tCO2e" = true)
      ∧ ci_match keyword "carbon emissions" = true
      ∧ all_chars (λ c, negb (is_digit c)) filler = true
      ∧ content !! "content"
        = Some (PStr (pre +:+ keyword +:+ filler +:+ figure +:+ " " +:+ unit
                          +:+ suf)).
Proof.
  intros content d.
  assert (Hrun : parse_esg_data content (World [] [] tt)
                 = (Ok 0, World [d] [] tt)) by (vm_compute; reflexivity).
  split; [exact Hrun|]. split; [reflexivity|]. split; [reflexivity|].
  exact (carbon_emissions_is_figure_and_unit content (World [] [] tt) 0
           (World [d] [] tt) d (PStr "12,500 metrıc tons") Hrun eq_refl
           eq_refl).
Defined.

(** [parse_esg_data_extracts_target] on a concrete input. *)
Lemma parse_esg_data_extracts_target_witness :
  let content : dict :=
    <["type" := PStr "html"]>
      (<["content" := PStr ("We pledge to be " +:+ "NET-ZERO BY " +:+ "2050"
                            +:+ "0 at the latest.")]> ∅) in
  content !! "type" = Some (PStr "html")
  ∧ ci_match "NET-ZERO BY " "net-zero by " = true
  ∧ decimal_digits 4 "2050" = true
  ∧ no_match_before net_zero_pattern "We pledge to be "
      ("NET-ZERO BY " +:+ "2050" +:+ "0 at the latest.") = true
  ∧ ∃ (w' : world unit) d,
      parse_esg_data content (World [] [] tt) = (Ok 0, w')
      ∧ heap w' !! 0 = Some d
      ∧ d !! "net_zero_target" = Some (PStr "2050").
Proof.
  intros content. split; [reflexivity|]. split; [reflexivity|].
  split; [vm_compute; reflexivity|]. split; [vm_compute; reflexivity|].
  apply (parse_esg_data_extracts_target content "We pledge to be "
           "NET-ZERO BY " "2050" "0 at the latest." (World [] [] tt));
    vm_compute; reflexivity.
Defined.

(** [parse_esg_data_extracts_carbon] on a concrete input. *)
Lemma parse_esg_data_extracts_carbon_witness :
  let content : dict :=
    <["type" := PStr "html"]>
      (<["content" := PStr ("Total " +:+ "Carbon Emissions" +:+ " fell to "
                            +:+ "45,000" +:+ " " +:+ "mt" +:+ " in 2023.")]>
         ∅) in
  content !! "type" = Some (PStr "html")
  ∧ ci_match "Carbon Emissions" "carbon emissions" = true
  ∧ all_chars (λ c, negb (is_digit c)) " fell to " = true
  ∧ is_digit "4" = true ∧ all_chars digit_or_comma "5,000" = true
  ∧ ci_match "mt" "MT" = true
  ∧ no_match_before carbon_pattern "Total "
      ("Carbon Emissions" +:+ " fell to " +:+ "45,000" +:+ " " +:+ "mt"
       +:+ " in 2023.") = true
  ∧ ∃ (w' : world unit) rec,
      parse_esg_data content (World [] [] tt) = (Ok 0, w')
      ∧ heap w' !! 0 = Some rec
      ∧ rec !! "carbon_emissions" = Some (PStr "45,000 mt").
Proof.
  intros content. repeat (split; [vm_compute; reflexivity|]).
  apply (parse_esg_data_extracts_carbon content "Total " "Carbon Emissions"
           " fell to " "4" "5,000" "mt" " in 2023." (World [] [] tt));
    try (vm_compute; reflexivity).
  right. left. reflexivity.
Defined.

(** [parse_esg_data_schema] on a concrete input. *)
Lemma parse_esg_data_schema_witness :
  let content : dict :=
    <["type" := PStr "html"]>
      (<["content" := PStr "Carbon emissions: 12,500 tCO2e."]> ∅) in
  let d : dict := <["carbon_emissions" := PStr "12,500 tCO2e"]> ∅ in
  parse_esg_data content (World [] [] tt) = (Ok 0, World [d] [] tt)
  ∧ heap (World [d] [] tt) !! 0 = Some d
  ∧ (∀ key v, d !! key = Some v →
       (key = "carbon_emissions" ∨ key = "net_zero_target" ∨ key = "note")
       ∧ ∃ s, v = PStr s)
  ∧ (is_Some (d !! "note") ↔ content !! "type" = Some (PStr "pdf"))
  ∧ (is_Some (d !! "note") →
     d = <["note" := PStr "PDF parsing not implemented yet"]> ∅).
Proof.
  intros content d.
  assert (Hrun : parse_esg_data content (World [] [] tt)
                 = (Ok 0, World [d] [] tt)) by (vm_compute; reflexivity).
  split; [exact Hrun|]. split; [reflexivity|].
  exact (parse_esg_data_schema content (World [] [] tt) 0
           (World [d] [] tt) d Hrun eq_refl).
Defined.

(** [parse_esg_data_no_figures] on a concrete input. *)
Lemma parse_esg_data_no_figures_witness :
  let content : dict :=
    <["type" := PStr "html"]>
      (<["content" := PStr "Our carbon emissions fell; net-zero by mid-century."]>
         ∅) in
  content !! "type" = Some (PStr "html")
  ∧ some_char (λ ch, figure_char ch || is_decimal ch)
      "Our carbon emissions fell; net-zero by mid-century." = false
  ∧ ∃ (w' : world unit),
      parse_esg_data content (World [] [] tt) = (Ok 0, w')
      ∧ heap w' !! 0 = Some ∅.
Proof.
  intros content. split; [reflexivity|]. split; [vm_compute; reflexivity|].
  apply (parse_esg_data_no_figures content
           "Our carbon emissions fell; net-zero by mid-century."
           (World [] [] tt)); vm_compute; reflexivity.
Defined.

(** [validate_data_complete_record] on a concrete input. *)
Lemma validate_data_complete_record_witness :
  let d : dict := <["carbon_emissions" := PStr "5 MT"]>
                    (<["net_zero_target" := PStr "2040"]> ∅) in
  heap (World [d] [] tt) !! 0 = Some d
  ∧ is_Some (d !! "carbon_emissions") ∧ is_Some (d !! "net_zero_target")
  ∧ validate_data 0 (World [d] [] tt) = (Ok 0, World [d] [] tt).
Proof.
  intros d.
  assert (Hc : is_Some (d !! "carbon_emissions")) by (eexists; reflexivity).
  assert (Hn : is_Some (d !! "net_zero_target")) by (eexists; reflexivity).
  split; [reflexivity|]. split; [exact Hc|]. split; [exact Hn|].
  exact (validate_data_complete_record (World [d] [] tt) 0 d eq_refl Hc Hn).
Defined.

(** [validate_data_one_missing] on a concrete input. *)
Lemma validate_data_one_missing_witness :
  let d : dict := <["carbon_emissions" := PStr "5 MT"]> ∅ in
  heap (World [d] [] tt) !! 0 = Some d
  ∧ error_list d = PList []
  ∧ ∃ w' : world unit,
      validate_data 0 (World [d] [] tt) = (Ok 0, w')
      ∧ heap w' !! 0
        = Some (<["error" := PList ([] ++ [PStr "Missing net-zero target"])]> d).
Proof.
  intros d. split; [reflexivity|]. split; [reflexivity|].
  destruct (validate_data_one_missing (World [d] [] tt) 0 d [] eq_refl eq_refl)
    as [Htarget _].
  apply Htarget; [eexists; reflexivity|reflexivity].
Defined.

(** [validate_data_type_error] on a concrete input. *)
Lemma validate_data_type_error_witness :
  let d : dict := <["error" := PStr "timeout"]> ∅ in
  heap (World [d] [] tt) !! 0 = Some d
  ∧ d !! "error" = Some (PStr "timeout")
  ∧ validate_data 0 (World [d] [] tt) = (Raise TypeError, World [d] [] tt).
Proof.
  intros d. split; [reflexivity|]. split; [reflexivity|].
  apply (validate_data_type_error (World [d] [] tt) 0 d (PStr "timeout")).
  - reflexivity.
  - reflexivity.
  - intros l H. discriminate H.
  - left. reflexivity.
Defined.

(** [fetch_content_effects] on a concrete input. *)
Lemma fetch_content_effects_witness :
  let c : dict := <["type" := PStr "pdf"]>
                    (<["content" := PStr "downloads/report.pdf"]> ∅) in
  let w' : world Demo.files :=
    World [] [] [("downloads/report.pdf", [x25; x50; x44; x46])] in
  fetch_content (PStr "http://a/report.pdf") Demo.start = (Ok (Some c), w')
  ∧ heap w' = heap Demo.start ∧ stdout w' = stdout Demo.start
  ∧ ∃ resp e1,
      requests_get (PStr "http://a/report.pdf") (ext Demo.start)
      = (Ok resp, e1)
      ∧ ((c !! "type" = Some (PStr "html") ∧ ext w' = e1)
         ∨ (c !! "type" = Some (PStr "pdf")
            ∧ ∃ path e2,
                c !! "content" = Some (PStr path)
                ∧ os_makedirs "downloads" e1 = (Ok tt, e2)
                ∧ write_binary path (body resp) e2 = (Ok tt, ext w'))).
Proof.
  intros c w'.
  assert (Hrun : fetch_content (PStr "http://a/report.pdf") Demo.start
                 = (Ok (Some c), w')) by reflexivity.
  split; [exact Hrun|].
  exact (fetch_content_effects (PStr "http://a/report.pdf") Demo.start c w'
           Hrun).
Defined.

(** [fetch_content_absent_warns] on a concrete input. *)
Lemma fetch_content_absent_warns_witness :
  let w' : world Demo.files :=
    World [] ["Error fetching content from http://a/gone: HTTPError"] [] in
  fetch_content (PStr "http://a/gone") Demo.start = (Ok None, w')
  ∧ heap w' = heap Demo.start
  ∧ ∃ e, stdout w'
         = stdout Demo.start
           ++ ["Error fetching content from " +:+ py_str (PStr "http://a/gone")
               +:+ ": " +:+ exn_str e].
Proof.
  intros w'.
  assert (Hrun : fetch_content (PStr "http://a/gone") Demo.start
                 = (Ok None, w')) by reflexivity.
  split; [exact Hrun|].
  exact (fetch_content_absent_warns (PStr "http://a/gone") Demo.start w' Hrun).
Defined.

(** [fetch_content_pdf_path] on a concrete input. *)
Lemma fetch_content_pdf_path_witness :
  let c : dict := <["type" := PStr "pdf"]>
                    (<["content" := PStr "downloads/report.pdf"]> ∅) in
  let w' : world Demo.files :=
    World [] [] [("downloads/report.pdf", [x25; x50; x44; x46])] in
  fetch_content (PStr "http://a/report.pdf") Demo.start = (Ok (Some c), w')
  ∧ c !! "type" = Some (PStr "pdf")
  ∧ ∃ s pre name,
      PStr "http://a/report.pdf" = PStr s ∧ s = pre +:+ name
      ∧ (pre = "" ∨ ∃ p, pre = p +:+ "/")
      ∧ all_chars (λ x, negb (Ascii.eqb x "/")) name = true
      ∧ c !! "content" = Some (PStr ("downloads/" +:+ name)).
Proof.
  intros c w'.
  assert (Hrun : fetch_content (PStr "http://a/report.pdf") Demo.start
                 = (Ok (Some c), w')) by reflexivity.
  split; [exact Hrun|]. split; [reflexivity|].
  exact (fetch_content_pdf_path (PStr "http://a/report.pdf") Demo.start c w'
           Hrun eq_refl).
Defined.

(** [fetch_content_succeeds] on a concrete input. *)
Lemma fetch_content_succeeds_witness :
  let resp := Response 200 (Some "application/pdf") [x25; x50; x44; x46] "" in
  requests_get (PStr "http://a/report.pdf") (ext Demo.start) = (Ok resp, [])
  ∧ raise_for_status resp = Ok tt
  ∧ fetch_content (PStr "http://a/report.pdf") Demo.start
    = (Ok (Some (<["type" := PStr "pdf"]>
                   (<["content" :=
                        PStr ("downloads/" +:+ last_segment "/"
                                                 "http://a/report.pdf")]> ∅))),
       World (heap Demo.start) (stdout Demo.start)
         [("downloads/report.pdf", [x25; x50; x44; x46])]).
Proof.
  intros resp.
  assert (Hget : requests_get (PStr "http://a/report.pdf") (ext Demo.start)
                 = (Ok resp, [])) by reflexivity.
  assert (Hst : raise_for_status resp = Ok tt) by reflexivity.
  split; [exact Hget|]. split; [exact Hst|].
  destruct (fetch_content_succeeds (PStr "http://a/report.pdf") Demo.start
              resp [] Hget Hst) as [Hpdf _].
  apply (Hpdf "" "" "http://a/report.pdf" []); reflexivity.
Defined.


(** [search_reports_hit_keys] on a concrete input. *)
Lemma search_reports_hit_keys_witness :
  let hits := [Demo.hit "A" "http://a/report.html";
               Demo.hit "B" "http://a/gone";
               Demo.hit "C" "http://a/report.pdf"] in
  search_reports Demo.searcher "esg report" 3 Demo.start
  = (Ok hits, Demo.start)
  ∧ heap Demo.start = heap Demo.start
  ∧ Forall (λ hit : dict,
              dom hit = ({["title"; "link"; "snippet"]} : gset string)) hits.
Proof.
  intros hits.
  assert (Hrun : search_reports Demo.searcher "esg report" 3 Demo.start
                 = (Ok hits, Demo.start)) by (vm_compute; reflexivity).
  split; [exact Hrun|].
  exact (search_reports_hit_keys Demo.searcher "esg report" 3 Demo.start
           hits Demo.start Hrun).
Defined.

(** [search_reports_no_items] on a concrete input. *)
Lemma search_reports_no_items_witness :
  let answer : dict := <["kind" := PStr "customsearch#search"]> ∅ in
  @cse_list_execute _ Quiet.runtime (api_key Demo.searcher) "esg report"
    (cse_id Demo.searcher) 10 (ext Demo.start)
  = (Ok (PDict answer), [])
  ∧ answer !! "items" = None
  ∧ @search_reports _ Quiet.runtime Demo.searcher "esg report" 10 Demo.start
    = (Ok [], World (heap Demo.start) (stdout Demo.start) []).
Proof.
  intros answer.
  assert (Hreq : @cse_list_execute _ Quiet.runtime (api_key Demo.searcher)
                   "esg report" (cse_id Demo.searcher) 10 (ext Demo.start)
                 = (Ok (PDict answer), [])) by reflexivity.
  split; [exact Hreq|]. split; [reflexivity|].
  destruct (@search_reports_no_items _ Quiet.runtime Demo.searcher
              "esg report" 10 Demo.start answer [] Hreq) as [Hnone _].
  apply Hnone. reflexivity.
Defined.

(** [process_search_results_store] on a concrete input. *)
Lemma process_search_results_store_witness :
  let hits := [Demo.hit "A" "http://a/report.html";
               Demo.hit "B" "http://a/gone";
               Demo.hit "C" "http://a/report.pdf"] in
  Forall is_hit hits
  ∧ ∃ (ds : list dict) w',
      process_search_results hits Demo.start
      = (Ok (seq (length (heap Demo.start)) (length ds)), w')
      ∧ heap w' = heap Demo.start ++ ds
      ∧ length ds ≤ length hits.
Proof.
  intros hits.
  assert (Hhits : Forall is_hit hits).
  { repeat constructor; eexists; reflexivity. }
  split; [exact Hhits|].
  exact (process_search_results_store hits Demo.start Hhits).
Defined.

(** [process_search_results_consistent] on a concrete input. *)
Lemma process_search_results_consistent_witness :
  let hits := [Demo.hit "A" "http://a/report.html";
               Demo.hit "C" "http://a/report.pdf"] in
  Forall is_hit hits
  ∧ ∃ records w',
      process_search_results hits Demo.start = (Ok records, w')
      ∧ Forall (λ r, ∃ d, heap w' !! r = Some d ∧ consistent_record d)
          records.
Proof.
  intros hits.
  assert (Hhits : Forall is_hit hits).
  { repeat constructor; eexists; reflexivity. }
  split; [exact Hhits|].
  exact (process_search_results_consistent hits Demo.start Hhits).
Defined.

(** [process_search_results_malformed] on a concrete input. *)
Lemma process_search_results_malformed_witness :
  let good := [Demo.hit "A" "http://a/report.html"] in
  let bad : dict := <["link" := PStr "http://a/report.pdf"]> ∅ in
  Forall is_hit good
  ∧ bad !! "title" = None
  ∧ ∃ w', process_search_results (good ++ bad :: []) Demo.start
          = (Raise (KeyError "title"), w').
Proof.
  intros good bad.
  assert (Hgood : Forall is_hit good).
  { repeat constructor; eexists; reflexivity. }
  split; [exact Hgood|]. split; [reflexivity|].
  destruct (process_search_results_malformed good bad [] Demo.start Hgood)
    as [Htitle _].
  apply Htitle. reflexivity.
Defined.

(** [process_search_results_no_snippet] on a concrete input. *)
Lemma process_search_results_no_snippet_witness :
  let hit : dict := <["title" := PStr "B"]>
                      (<["link" := PStr "http://a/gone"]> ∅) in
  let w1 : world Demo.files :=
    World [] ["Processing: B - http://a/gone";
              "Error fetching content from http://a/gone: HTTPError"] [] in
  is_Some (hit !! "title") ∧ is_Some (hit !! "link")
  ∧ hit !! "snippet" = None
  ∧ fetch_content (default PNone (hit !! "link"))
      (World (heap Demo.start)
         (stdout Demo.start ++ [processing_line hit]) (ext Demo.start))
    = (Ok None, w1)
  ∧ process_search_results (hit :: []) Demo.start
    = process_search_results [] w1.
Proof.
  intros hit w1.
  assert (Ht : is_Some (hit !! "title")) by (eexists; reflexivity).
  assert (Hl : is_Some (hit !! "link")) by (eexists; reflexivity).
  assert (Hf : fetch_content (default PNone (hit !! "link"))
                 (World (heap Demo.start)
                    (stdout Demo.start ++ [processing_line hit])
                    (ext Demo.start))
               = (Ok None, w1)) by reflexivity.
  split; [exact Ht|]. split; [exact Hl|]. split; [reflexivity|].
  split; [exact Hf|].
  exact (process_search_results_no_snippet hit [] Demo.start Ht Hl eq_refl
           None w1 Hf).
Defined.
